(** * The command execution bridge of indesign-mcp-server

    A shallow embedding of [src/index.js]: the tool dispatcher
    ([CallToolRequestSchema] handler), the transport
    ([executeAppleScript], [executeInDesignScript]), [formatResponse], and
    the payload templates of [deletePage], [createTextFrame],
    [createColorSwatch] and [executeInDesignCode].

    Layout of the development:
    - [Js]      : the JavaScript values and string primitives the code uses;
    - [Node]    : the Node.js side: file system, child processes, exceptions,
                  written as a state-and-exception monad over a [World];
    - [Bridge]  : the functions of [src/index.js] themselves;
    - [ExtendScript] : what the rendered payloads do once the foreign engine
                  runs them (string literals, the try/catch guard, the
                  statements of the templates);
    - [Desk], [Demo] : a small application and a few machines on which the
                  definitions are run;
    - the facts about the transport and the handler, then the theorems, one
      block per claim of the specification. *)

From Stdlib Require Import ZArith NArith String Ascii List Bool Lia.
From stdpp Require Import base option gmap strings list pretty.

Local Open Scope Z_scope.

(** String concatenation computes on a literal first argument. *)
#[local] Arguments String.append !s1 s2 : simpl nomatch.

(* ===================================================================== *)
(** ** JavaScript values and string primitives                            *)
(* ===================================================================== *)

Module Js.

(** Characters the templates need and that cannot be typed inside a string. *)
Definition dquote : ascii := "034"%char.
Definition squote : ascii := "039"%char.
Definition backslash : ascii := "092"%char.
Definition LF : ascii := "010"%char.
Definition CR : ascii := "013"%char.

Definition dq : string := String dquote "".
Definition sq : string := String squote "".
Definition bs : string := String backslash "".
Definition nl : string := String LF "".

(** [q s] is [s] between double quotes, as it stands in a template. *)
Definition q (s : string) : string := dq +:+ s +:+ dq.

(** A template literal that spans several source lines. *)
Fixpoint lines (l : list string) : string :=
  match l with
  | [] => ""
  | [x] => x
  | x :: rest => x +:+ nl +:+ lines rest
  end.

(** [s.replace(/c/g, by)] for a one-character pattern [c]; none of the
    replacement strings of the source contains a [$] pattern. *)
Fixpoint replaceAll (c : ascii) (by_ : string) (s : string) : string :=
  match s with
  | EmptyString => EmptyString
  | String a rest =>
      (if Ascii.eqb a c then by_ else String a "") +:+ replaceAll c by_ rest
  end.

(** White space that [String.prototype.trim] strips, among the one-byte
    characters: TAB, LF, VT, FF, CR and SPACE. *)
Definition isWhiteSpace (a : ascii) : bool :=
  let n := nat_of_ascii a in
  ((9 <=? n)%nat && (n <=? 13)%nat) || (n =? 32)%nat.

Fixpoint trimStart (s : string) : string :=
  match s with
  | EmptyString => EmptyString
  | String a rest => if isWhiteSpace a then trimStart rest else s
  end.

Definition trimEnd (s : string) : string :=
  String.rev (trimStart (String.rev s)).

Definition trim (s : string) : string := trimEnd (trimStart s).

(** [s.startsWith(p)], used to talk about the sentinel prefix. *)
Definition startsWith (p s : string) : bool := String.prefix p s.

(** The values a JSON-shaped [arguments] object can hold. Numbers are the
    integers (on which JavaScript arithmetic and printing are exact below
    2^53) and [NaN]; fractions are outside the model. *)
#[warnings="-register-all"]
Inductive JsValue :=
| JUndefined
| JNull
| JBool (b : bool)
| JNum (n : Z)
| JNaN
| JStr (s : string)
| JArr (items : list JsValue)
| JObj (fields : list (string * JsValue)).

(** ToString, as applied by [${...}] in a template literal. An array prints
    its elements separated by commas, [undefined] and [null] elements as the
    empty string. *)
Fixpoint ToString (v : JsValue) : string :=
  match v with
  | JUndefined => "undefined"
  | JNull => "null"
  | JBool true => "true"
  | JBool false => "false"
  | JNum n => pretty n
  | JNaN => "NaN"
  | JStr s => s
  | JArr items =>
      (fix go (l : list JsValue) : string :=
         match l with
         | [] => ""
         | x :: rest =>
             match x with JUndefined | JNull => "" | _ => ToString x end
             +:+ match rest with [] => "" | _ => "," +:+ go rest end
         end) items
  | JObj _ => "[object Object]"
  end.

Definition elementText (v : JsValue) : string :=
  match v with JUndefined | JNull => "" | _ => ToString v end.

Fixpoint joinWith (sep : string) (l : list string) : string :=
  match l with
  | [] => ""
  | [x] => x
  | x :: rest => x +:+ sep +:+ joinWith sep rest
  end.

(** ToBoolean, as applied by [c ? a : b] and [a || b]. *)
Definition ToBoolean (v : JsValue) : bool :=
  match v with
  | JUndefined | JNull | JNaN => false
  | JBool b => b
  | JNum n => negb (n =? 0)
  | JStr s => negb (String.eqb s "")
  | JArr _ | JObj _ => true
  end.

(** ToNumber on the primitives; [None] stands for a value whose conversion
    goes through ToPrimitive to a string first (arrays, objects, strings). *)
Definition primitiveNumber (v : JsValue) : option JsValue :=
  match v with
  | JUndefined | JNaN => Some JNaN
  | JNull => Some (JNum 0)
  | JBool b => Some (JNum (if b then 1 else 0))
  | JNum n => Some (JNum n)
  | JStr _ | JArr _ | JObj _ => None
  end.

(** The binary [+]: numeric addition when both operands convert to numbers
    without passing through a string, concatenation of the ToString images
    otherwise. *)
Definition add (a b : JsValue) : JsValue :=
  match primitiveNumber a, primitiveNumber b with
  | Some (JNum x), Some (JNum y) => JNum (x + y)
  | Some _, Some _ => JNaN
  | _, _ => JStr (ToString a +:+ ToString b)
  end.

(** An object used as a record of named arguments. *)
Abbreviation Obj := (gmap string JsValue).

(** [o.k]: a missing property reads as [undefined]. *)
Definition get (o : Obj) (k : string) : JsValue := default JUndefined (o !! k).

(** [const { k = d } = o]: the default replaces a missing or [undefined]
    property, and nothing else. *)
Definition getOr (o : Obj) (k : string) (d : JsValue) : JsValue :=
  match get o k with JUndefined => d | v => v end.

End Js.

Import Js.

(* ===================================================================== *)
(** ** The Node.js side: exceptions, file system, child processes          *)
(* ===================================================================== *)

Module Node.

(** The two members of the SDK's [ErrorCode] enumeration the code names. *)
Inductive ErrorCode := MethodNotFound | InternalError.

(** The exceptions that travel through the handler. [message] is the
    [.message] property of the thrown object. *)
Inductive JsError :=
| Error (msg : string)
| TypeError (msg : string)
| McpError (code : ErrorCode) (msg : string).

Definition message (e : JsError) : string :=
  match e with Error m | TypeError m | McpError _ m => m end.

(** How a function call ends. *)
Inductive Outcome (A : Type) :=
| Return (a : A)
| Throw (e : JsError).
Arguments Return {A} a.
Arguments Throw {A} e.

(** What the process did to its surroundings, oldest first. *)
Inductive Event :=
| Written (path content : string)
| Spawned (command : string) (timeout : N)
| Unlinked (path : string).

(** The part of the machine the bridge touches: the files, by path, and the
    record of what was done. *)
Record World := {
  files : gmap string string;
  events : list Event;
}.

(** How a spawned command ends by itself. *)
Inductive Ending :=
| SpawnFailed (diagnostic : string)
| Exited (status : Z) (stdout stderr : string).

(** One run of a shell command: the time it needs, how it ends, and the files
    it leaves behind (the command may itself create or remove files). *)
Record Child := {
  elapsed : N;
  ending : Ending;
  files_after : gmap string string;
}.

(** Computations of the Node process: state passing with exceptions. *)
Definition M (A : Type) : Type := World -> Outcome A * World.

Definition ret {A} (a : A) : M A := fun w => (Return a, w).
Definition throw {A} (e : JsError) : M A := fun w => (Throw e, w).

Definition bind {A B} (m : M A) (k : A -> M B) : M B :=
  fun w =>
    match m w with
    | (Return a, w') => k a w'
    | (Throw e, w') => (Throw e, w')
    end.

(** A pure step that may throw (the evaluation of a template literal). *)
Definition lift {A} (o : Outcome A) : M A := fun w => (o, w).

(** [try { body } catch (error) { handler }] *)
Definition try_catch {A} (body : M A) (handler : JsError -> M A) : M A :=
  fun w =>
    match body w with
    | (Return a, w') => (Return a, w')
    | (Throw e, w') => handler e w'
    end.

(** [try { body } finally { final }]: [final] runs on every exit of [body];
    when it throws, its exception replaces the outcome of [body]. *)
Definition try_finally {A} (body : M A) (final : M unit) : M A :=
  fun w =>
    match body w with
    | (r, w') =>
        match final w' with
        | (Return _, w'') => (r, w'')
        | (Throw e, w'') => (Throw e, w'')
        end
    end.

(** [fs.writeFileSync], [fs.existsSync] and [fs.unlinkSync] on a file system
    in which every path can be written and removed. *)
Definition writeFileSync (path data : string) : M unit :=
  fun w =>
    (Return tt,
     {| files := <[path := data]> (files w);
        events := events w ++ [Written path data] |}).

Definition existsSync (path : string) : M bool :=
  fun w => (Return (bool_decide (is_Some (files w !! path))), w).

Definition unlinkSync (path : string) : M unit :=
  fun w =>
    (Return tt,
     {| files := delete path (files w);
        events := events w ++ [Unlinked path] |}).

(** The message Node gives the exception of a child killed at its time
    limit, and of a child that exits with a non-zero status. *)
Definition timedOutMessage : string := "spawnSync /bin/sh ETIMEDOUT".
Definition commandFailedMessage (command stderr : string) : string :=
  "Command failed: " +:+ command +:+ nl +:+ stderr.

(** [child_process.execSync(command, { encoding: 'utf8', timeout })], over
    [run], which tells what the command does on the files it finds. The call
    throws when the shell cannot be spawned, when the command is still
    running after [timeout] milliseconds (it is killed then), and when it
    exits with a non-zero status; otherwise it returns the standard output. *)
Definition execSync (run : string -> gmap string string -> Child)
    (command : string) (timeout : N) : M string :=
  fun w =>
    let c := run command (files w) in
    let w' := {| files := files_after c;
                 events := events w ++ [Spawned command timeout] |} in
    match ending c with
    | SpawnFailed diagnostic => (Throw (Error diagnostic), w')
    | Exited status stdout stderr =>
        if (timeout <? elapsed c)%N then (Throw (Error timedOutMessage), w')
        else if status =? 0 then (Return stdout, w')
        else (Throw (Error (commandFailedMessage command stderr)), w')
    end.

End Node.

Import Node.

Declare Scope js_scope.
Delimit Scope js_scope with js.
Notation "x <- m ;; k" := (bind m (fun x => k))
  (at level 100, m at next level, right associativity) : js_scope.
Notation "m ;;; k" := (bind m (fun _ => k))
  (at level 100, right associativity) : js_scope.

Local Open Scope js_scope.

(* ===================================================================== *)
(** ** The bridge: [src/index.js]                                          *)
(* ===================================================================== *)

(** What the code takes from outside the file:
    - [dirname]: the module's [__dirname];
    - [run]: what a shell command does (the [osascript] run that drives the
      application), see [Node.execSync];
    - [mcpMessage]: the [.message] the SDK's [McpError] constructor builds
      from a code and a text;
    - [payload]: the evaluation of the payload template of each tool whose
      template is not spelled out below (it may throw, and does nothing
      else). *)
Record Env := {
  dirname : string;
  run : string -> gmap string string -> Child;
  mcpMessage : ErrorCode -> string -> string;
  payload : string -> option Obj -> Outcome string;
}.

(** [{ type: 'text', text }] and [{ content: [...] }]. *)
Record ContentBlock := { type : string; text : string }.
Record Response := { content : list ContentBlock }.

(** [const { name, arguments: args } = request.params] *)
Record Request := { name : string; arguments : option Obj }.

(** [n] spaces of indentation, then [s]. *)
Fixpoint sp (n : nat) (s : string) : string :=
  match n with
  | O => s
  | S k => String " " (sp k s)
  end.

Section Bridge.

Variable env : Env.

(** [new McpError(code, text)] *)
Definition newMcpError (code : ErrorCode) (text : string) : JsError :=
  McpError code (mcpMessage env code text).

(** [path.join(__dirname, 'temp_script.jsx')], with [__dirname] a directory
    path without a trailing separator. *)
Definition tempScript : string := dirname env +:+ "/" +:+ "temp_script.jsx".

(** The shell command of [executeAppleScript]. *)
Definition osascriptCommand (script : string) : string :=
  "osascript -e '"
    +:+ replaceAll squote (sq +:+ dq +:+ sq +:+ dq +:+ sq) script
    +:+ "'".

Definition executeAppleScript (script : string) : M string :=
  try_catch
    (result <- execSync (run env) (osascriptCommand script) 30000 ;;
     ret (trim result))
    (fun error =>
       throw (Error ("AppleScript execution failed: " +:+ message error))).

(** The engine-level guard: the template around [${script}]. *)
Definition wrappedScript (script : string) : string :=
  lines [
    "";
    sp 6 "try {";
    sp 8 script;
    sp 6 "} catch (error) {";
    sp 8 (q "ERROR: " +:+ " + error.message + " +:+ q " (Line: "
          +:+ " + (error.line || " +:+ q "unknown" +:+ ") + " +:+ q ")" +:+ ";");
    sp 6 "}";
    sp 4 ""
  ].

(** The AppleScript handed to [osascript]. *)
Definition appleScript : string :=
  lines [
    "";
    sp 8 ("tell application " +:+ q "Adobe InDesign 2025");
    sp 10 "activate";
    sp 10 ("do script POSIX file " +:+ q tempScript +:+ " language javascript");
    sp 8 "end tell";
    sp 6 ""
  ].

Definition executeInDesignScript (script : string) : M string :=
  writeFileSync tempScript (wrappedScript script) ;;;
  try_finally
    (result <- executeAppleScript appleScript ;;
     ret result)
    (present <- existsSync tempScript ;;
     if present then unlinkSync tempScript else ret tt).

Definition formatResponse (result operation : string) : Response :=
  {| content := [ {| type := "text"; text := operation +:+ ": " +:+ result |} ] |}.

(** The common shape of the tool methods: evaluate the payload template, run
    it, format the answer under the tool's label. *)
Definition runTool (label : string) (script : Outcome string) : M Response :=
  script <- lift script ;;
  result <- executeInDesignScript script ;;
  ret (formatResponse result label).

(** *** Evaluating the payload templates *)

Definition andThen {A B} (o : Outcome A) (k : A -> Outcome B) : Outcome B :=
  match o with
  | Return a => k a
  | Throw e => Throw e
  end.

(** [const { first, ... } = args]: destructuring [undefined] throws. *)
Definition destructure (first : string) (args : option Obj) : Outcome Obj :=
  match args with
  | Some o => Return o
  | None =>
      Throw (TypeError ("Cannot destructure property '" +:+ first
                        +:+ "' of 'args' as it is undefined."))
  end.

(** The exceptions of a method call [expr.method(...)] on a value that has
    no such method. *)
Definition noMethod (expr method : string) (v : JsValue) : JsError :=
  match v with
  | JUndefined | JNull =>
      TypeError ("Cannot read properties of " +:+ ToString v
                 +:+ " (reading '" +:+ method +:+ "')")
  | _ => TypeError (expr +:+ "." +:+ method +:+ " is not a function")
  end.

(** [expr.join(sep)]: arrays only. *)
Definition join (expr : string) (v : JsValue) (sep : string) : Outcome string :=
  match v with
  | JArr items => Return (joinWith sep (map elementText items))
  | _ => Throw (noMethod expr "join" v)
  end.

(** The receiver of a string method ([replace], [substring]): strings only. *)
Definition stringMethod (expr method : string) (v : JsValue) : Outcome string :=
  match v with
  | JStr s => Return s
  | _ => Throw (noMethod expr method v)
  end.

(** *** deletePage *)

Definition deletePageScript (pageIndex : string) : string :=
  lines [
    "";
    sp 6 "if (app.documents.length === 0) {";
    sp 8 (q "No document open" +:+ ";");
    sp 6 "} else {";
    sp 8 "var doc = app.activeDocument;";
    sp 8 "try {";
    sp 10 ("if (" +:+ pageIndex +:+ " >= doc.pages.length || " +:+ pageIndex
           +:+ " < 0) {");
    sp 12 (q ("Invalid page index: " +:+ pageIndex +:+ ". Document has ")
           +:+ " + doc.pages.length + " +:+ q " pages." +:+ ";");
    sp 10 "} else if (doc.pages.length === 1) {";
    sp 12 (q "Cannot delete the last page in the document." +:+ ";");
    sp 10 "} else {";
    sp 12 ("var pageToDelete = doc.pages[" +:+ pageIndex +:+ "];");
    sp 12 "pageToDelete.remove();";
    sp 12 (q "Page " +:+ " + (" +:+ pageIndex +:+ " + 1) + "
           +:+ q " deleted. Remaining pages: " +:+ " + doc.pages.length;");
    sp 10 "}";
    sp 8 "} catch (e) {";
    sp 10 (q "Error deleting page: " +:+ " + e.message;");
    sp 8 "}";
    sp 6 "}";
    sp 4 ""
  ].

Definition deletePagePayload (args : option Obj) : Outcome string :=
  andThen (destructure "pageIndex" args) (fun args =>
  let pageIndex := get args "pageIndex" in
  Return (deletePageScript (ToString pageIndex))).

Definition deletePage (args : option Obj) : M Response :=
  runTool "Delete Page" (deletePagePayload args).

(** *** createColorSwatch *)

Definition createColorSwatchScript
    (name colorModel colorValues : string) (spotColor : bool) : string :=
  lines [
    "";
    sp 6 "if (app.documents.length === 0) {";
    sp 8 (q "No document open" +:+ ";");
    sp 6 "} else {";
    sp 8 "var doc = app.activeDocument;";
    sp 8 "try {";
    sp 10 "var newColor;";
    sp 10 "";
    sp 10 ("if (" +:+ q colorModel +:+ " === " +:+ q "CMYK" +:+ ") {");
    sp 12 "newColor = doc.colors.add();";
    sp 12 ("newColor.name = " +:+ q name +:+ ";");
    sp 12 "newColor.model = ColorModel.SPOT;";
    sp 12 ("newColor.colorValue = [" +:+ colorValues +:+ "];");
    sp 12 (if spotColor then "newColor.model = ColorModel.SPOT;"
           else "newColor.model = ColorModel.PROCESS;");
    sp 10 ("} else if (" +:+ q colorModel +:+ " === " +:+ q "RGB" +:+ ") {");
    sp 12 "newColor = doc.colors.add();";
    sp 12 ("newColor.name = " +:+ q name +:+ ";");
    sp 12 "newColor.model = ColorModel.PROCESS;";
    sp 12 "newColor.space = ColorSpace.RGB;";
    sp 12 ("newColor.colorValue = [" +:+ colorValues +:+ "];");
    sp 10 "}";
    sp 10 "";
    sp 10 (q ("Color swatch '" +:+ name +:+ "' created (" +:+ colorModel +:+ ": "
              +:+ colorValues +:+ ")") +:+ ";");
    sp 8 "} catch (e) {";
    sp 10 (q "Error creating color swatch: " +:+ " + e.message;");
    sp 8 "}";
    sp 6 "}";
    sp 4 ""
  ].

Definition createColorSwatchPayload (args : option Obj) : Outcome string :=
  andThen (destructure "name" args) (fun args =>
  let name := get args "name" in
  let colorModel := getOr args "colorModel" (JStr "CMYK") in
  let colorValues := get args "colorValues" in
  let spotColor := getOr args "spotColor" (JBool false) in
  andThen (join "colorValues" colorValues ", ") (fun joined =>
  Return (createColorSwatchScript (ToString name) (ToString colorModel)
            joined (ToBoolean spotColor)))).

Definition createColorSwatch (args : option Obj) : M Response :=
  runTool "Create Color Swatch" (createColorSwatchPayload args).

(** *** createTextFrame *)

(** The argument of [textFrame.contents = ...]: [content] after its two
    [replace] calls. The first puts a backslash before every double quote,
    the second turns every line feed into the two characters backslash and
    [n]. No other character is touched. *)
Definition escapeContent (content : string) : string :=
  replaceAll LF (bs +:+ "n") (replaceAll dquote (bs +:+ dq) content).

(** The clause of an optional style: [${style ? `...` : ''}]. *)
Definition styleClause (style : JsValue) (var collection target : string) : string :=
  if ToBoolean style then
    lines [
      "";
      sp 14 "try {";
      sp 16 ("var " +:+ var +:+ " = doc." +:+ collection +:+ ".itemByName("
             +:+ q (ToString style) +:+ ");");
      sp 16 ("if (" +:+ var +:+ ".isValid) {");
      sp 18 ("story." +:+ target +:+ " = " +:+ var +:+ ";");
      sp 16 "}";
      sp 14 "} catch (e) {}";
      sp 12 ""
    ]
  else "".

Definition createTextFrameScript
    (pageIndex x y yPlusHeight xPlusWidth escaped fontFamily fontStyle fontSize
     textColor alignment : string) (paragraphStyle characterStyle : JsValue)
    (preview : string) : string :=
  lines [
    "";
    sp 6 "if (app.documents.length === 0) {";
    sp 8 (q "No document open. Please create a document first." +:+ ";");
    sp 6 "} else {";
    sp 8 "var doc = app.activeDocument;";
    sp 8 "try {";
    sp 10 ("if (" +:+ pageIndex +:+ " >= doc.pages.length || " +:+ pageIndex
           +:+ " < 0) {");
    sp 12 (q ("Invalid page index: " +:+ pageIndex) +:+ ";");
    sp 10 "} else {";
    sp 12 ("var page = doc.pages[" +:+ pageIndex +:+ "];");
    sp 12 "";
    sp 12 "// Create text frame";
    sp 12 "var textFrame = page.textFrames.add();";
    sp 12 ("textFrame.geometricBounds = [" +:+ q (y +:+ "mm") +:+ ", "
           +:+ q (x +:+ "mm") +:+ ", " +:+ q (yPlusHeight +:+ "mm") +:+ ", "
           +:+ q (xPlusWidth +:+ "mm") +:+ "];");
    sp 12 "";
    sp 12 "// Add content";
    sp 12 ("textFrame.contents = " +:+ q escaped +:+ ";");
    sp 12 "";
    sp 12 "// Apply formatting";
    sp 12 "var story = textFrame.parentStory;";
    sp 12 "";
    sp 12 "// Font and size";
    sp 12 "try {";
    sp 14 ("story.characters.everyItem().appliedFont = app.fonts.itemByName("
           +:+ q (fontFamily +:+ bs +:+ "t" +:+ fontStyle) +:+ ");");
    sp 12 "} catch (e) {";
    sp 14 "try {";
    sp 16 ("story.characters.everyItem().appliedFont = app.fonts.itemByName("
           +:+ q fontFamily +:+ ");");
    sp 14 "} catch (e2) {";
    sp 16 "// Use default font";
    sp 14 "}";
    sp 12 "}";
    sp 12 "";
    sp 12 ("story.characters.everyItem().pointSize = " +:+ fontSize +:+ ";");
    sp 12 "";
    sp 12 "// Color";
    sp 12 "try {";
    sp 14 ("story.characters.everyItem().fillColor = doc.swatches.itemByName("
           +:+ q textColor +:+ ");");
    sp 12 "} catch (e) {";
    sp 14 "// Use default color";
    sp 12 "}";
    sp 12 "";
    sp 12 "// Alignment";
    sp 12 ("story.paragraphs.everyItem().justification = Justification."
           +:+ alignment +:+ ";");
    sp 12 "";
    sp 12 "// Apply styles if specified";
    sp 12 (styleClause paragraphStyle "pStyle" "paragraphStyles"
             "paragraphs.everyItem().appliedParagraphStyle");
    sp 12 "";
    sp 12 (styleClause characterStyle "cStyle" "characterStyles"
             "characters.everyItem().appliedCharacterStyle");
    sp 12 "";
    sp 12 (q "Text frame created on page " +:+ " + (" +:+ pageIndex +:+ " + 1) + "
           +:+ q " with content: " +:+ " + " +:+ q preview +:+ ";");
    sp 10 "}";
    sp 8 "} catch (e) {";
    sp 10 (q "Error creating text frame: " +:+ " + e.message;");
    sp 8 "}";
    sp 6 "}";
    sp 4 ""
  ].

(** [${content.substring(0, 50)}${content.length > 50 ? '...' : ''}], the
    text put between the double quotes of the last literal. *)
Definition preview (content : string) : string :=
  String.substring 0 50 content
  +:+ (if (50 <? String.length content)%nat then "..." else "").

Definition createTextFramePayload (args : option Obj) : Outcome string :=
  andThen (destructure "content" args) (fun args =>
  let content := get args "content" in
  let x := getOr args "x" (JNum 10) in
  let y := getOr args "y" (JNum 10) in
  let width := getOr args "width" (JNum 100) in
  let height := getOr args "height" (JNum 50) in
  let pageIndex := getOr args "pageIndex" (JNum 0) in
  let fontSize := getOr args "fontSize" (JNum 12) in
  let fontFamily := getOr args "fontFamily" (JStr "Helvetica Neue") in
  let fontStyle := getOr args "fontStyle" (JStr "Regular") in
  let textColor := getOr args "textColor" (JStr "Black") in
  let alignment := getOr args "alignment" (JStr "LEFT_ALIGN") in
  let paragraphStyle := get args "paragraphStyle" in
  let characterStyle := get args "characterStyle" in
  andThen (stringMethod "content" "replace" content) (fun text =>
  Return (createTextFrameScript
            (ToString pageIndex) (ToString x) (ToString y)
            (ToString (add y height)) (ToString (add x width))
            (escapeContent text)
            (ToString fontFamily) (ToString fontStyle) (ToString fontSize)
            (ToString textColor) (ToString alignment)
            paragraphStyle characterStyle
            (preview text)))).

Definition createTextFrame (args : option Obj) : M Response :=
  runTool "Create Text Frame" (createTextFramePayload args).

(** *** executeInDesignCode *)

(** [args.code]: reading a property of [undefined] throws. *)
Definition property (expr : option Obj) (k : string) : Outcome JsValue :=
  match expr with
  | Some o => Return (get o k)
  | None =>
      Throw (TypeError ("Cannot read properties of undefined (reading '"
                        +:+ k +:+ "')"))
  end.

(** [code] reaches the guard through [${script}], that is, as its ToString
    image: a string stands for itself. *)
Definition executeInDesignCode (code : JsValue) : M Response :=
  runTool "Execute Custom Code" (Return (ToString code)).

(** *** The [CallToolRequestSchema] handler *)

(** A tool method whose template is taken from [payload]. *)
Definition otherTool (tool label : string) (args : option Obj) : M Response :=
  runTool label (payload env tool args).

(** The [case] labels of the [switch], in order, each with the call it
    returns. *)
Definition cases : list (string * (option Obj -> M Response)) := [
  ("get_document_info", fun _ => otherTool "get_document_info" "Document Info" None);
  ("create_document", otherTool "create_document" "Create Document");
  ("open_document", otherTool "open_document" "Open Document");
  ("save_document", otherTool "save_document" "Save Document");
  ("close_document", otherTool "close_document" "Close Document");
  ("add_page", otherTool "add_page" "Add Page");
  ("delete_page", deletePage);
  ("duplicate_page", otherTool "duplicate_page" "Duplicate Page");
  ("navigate_to_page", otherTool "navigate_to_page" "Navigate to Page");
  ("create_text_frame", createTextFrame);
  ("edit_text_frame", otherTool "edit_text_frame" "Edit Text Frame");
  ("find_replace_text", otherTool "find_replace_text" "Find/Replace Text");
  ("place_image", otherTool "place_image" "Place Image");
  ("create_rectangle", otherTool "create_rectangle" "Create Rectangle");
  ("create_ellipse", otherTool "create_ellipse" "Create Ellipse");
  ("create_paragraph_style", otherTool "create_paragraph_style" "Create Paragraph Style");
  ("create_character_style", otherTool "create_character_style" "Create Character Style");
  ("apply_paragraph_style", otherTool "apply_paragraph_style" "Apply Paragraph Style");
  ("list_styles", otherTool "list_styles" "List Styles");
  ("create_color_swatch", createColorSwatch);
  ("list_color_swatches", fun _ => otherTool "list_color_swatches" "List Color Swatches" None);
  ("apply_color", otherTool "apply_color" "Apply Color");
  ("create_table", otherTool "create_table" "Create Table");
  ("populate_table", otherTool "populate_table" "Populate Table");
  ("create_layer", otherTool "create_layer" "Create Layer");
  ("set_active_layer", otherTool "set_active_layer" "Set Active Layer");
  ("list_layers", fun _ => otherTool "list_layers" "List Layers" None);
  ("export_pdf", otherTool "export_pdf" "Export PDF");
  ("export_images", otherTool "export_images" "Export Images");
  ("export_epub", otherTool "export_epub" "Export EPUB");
  ("package_document", otherTool "package_document" "Package Document");
  ("execute_indesign_code", fun args =>
     code <- lift (property args "code") ;; executeInDesignCode code);
  ("preflight_document", otherTool "preflight_document" "Preflight Document");
  ("view_document", fun _ => otherTool "view_document" "Document View" None);
  ("zoom_to_page", otherTool "zoom_to_page" "Zoom to Page");
  ("data_merge", otherTool "data_merge" "Data Merge")
].

(** [switch (name)]: the first label strictly equal to [name]. *)
Fixpoint switch {A} (name : string) (l : list (string * A)) : option A :=
  match l with
  | [] => None
  | (label, a) :: rest => if String.eqb name label then Some a else switch name rest
  end.

Definition callTool (request : Request) : M Response :=
  let name := name request in
  let args := arguments request in
  try_catch
    (match switch name cases with
     | Some method => method args
     | None => throw (newMcpError MethodNotFound ("Unknown tool: " +:+ name))
     end)
    (fun error =>
       throw (newMcpError InternalError
                ("Error executing tool " +:+ name +:+ ": " +:+ message error))).

End Bridge.

(** The texts stay folded when a proof simplifies a goal. *)
Arguments tempScript : simpl never.
Arguments osascriptCommand : simpl never.
Arguments wrappedScript : simpl never.
Arguments appleScript : simpl never.
Arguments deletePageScript : simpl never.
Arguments createColorSwatchScript : simpl never.
Arguments createTextFrameScript : simpl never.
Arguments trim : simpl never.

(* ===================================================================== *)
(** ** The foreign engine: what a rendered payload does                    *)
(* ===================================================================== *)

Module ExtendScript.

(** *** String literals *)

Definition isLineTerminator (a : ascii) : bool :=
  Ascii.eqb a LF || Ascii.eqb a CR.

Definition isDigit (a : ascii) : bool :=
  let n := N_of_ascii a in ((48 <=? n) && (n <=? 57))%N.

Definition hexDigit (a : ascii) : option N :=
  let n := N_of_ascii a in
  if ((48 <=? n) && (n <=? 57))%N then Some (n - 48)%N
  else if ((65 <=? n) && (n <=? 70))%N then Some (n - 55)%N
  else if ((97 <=? n) && (n <=? 102))%N then Some (n - 87)%N
  else None.

Fixpoint hexValue (digits : list ascii) (acc : N) : option N :=
  match digits with
  | [] => Some acc
  | d :: rest =>
      match hexDigit d with
      | Some v => hexValue rest (16 * acc + v)%N
      | None => None
      end
  end.

(** The character a hexadecimal escape denotes, when it fits in one byte. *)
Definition hexChar (digits : list ascii) : option ascii :=
  match hexValue digits 0%N with
  | Some v => if (v <? 256)%N then Some (ascii_of_N v) else None
  | None => None
  end.

(** The character denoted by a backslash followed by [e], for [e] that is
    neither a digit, [x], [u] nor a line terminator: the single escape
    characters, and every other character standing for itself. *)
Definition escaped (e : ascii) : ascii :=
  if Ascii.eqb e "b" then "008"
  else if Ascii.eqb e "t" then "009"
  else if Ascii.eqb e "n" then "010"
  else if Ascii.eqb e "v" then "011"
  else if Ascii.eqb e "f" then "012"
  else if Ascii.eqb e "r" then "013"
  else e.

Definition consTo (a : ascii) (o : option string) : option string :=
  match o with
  | Some s => Some (String a s)
  | None => None
  end.

(** [decodeBody s]: the string value of the literal whose text between its
    two double quotes is [s]. [None] when [s] is not the body of one
    double-quoted literal: it holds a bare double quote (the literal ends
    there), a bare line terminator, a backslash with nothing after it (it
    would escape the closing quote), a broken escape, or an escape outside
    this model (octal digits, code points above 255). *)
Fixpoint decodeBody (s : string) : option string :=
  match s with
  | EmptyString => Some EmptyString
  | String c rest =>
      if Ascii.eqb c backslash then
        match rest with
        | EmptyString => None
        | String e rest1 =>
            if isLineTerminator e then None
            else if Ascii.eqb e "x" then
              match rest1 with
              | String h1 (String h2 rest2) =>
                  match hexChar [h1; h2] with
                  | Some a => consTo a (decodeBody rest2)
                  | None => None
                  end
              | _ => None
              end
            else if Ascii.eqb e "u" then
              match rest1 with
              | String h1 (String h2 (String h3 (String h4 rest2))) =>
                  match hexChar [h1; h2; h3; h4] with
                  | Some a => consTo a (decodeBody rest2)
                  | None => None
                  end
              | _ => None
              end
            else if isDigit e then
              if Ascii.eqb e "0" then
                match rest1 with
                | String d _ =>
                    if isDigit d then None else consTo "000" (decodeBody rest1)
                | EmptyString => Some (String "000" EmptyString)
                end
              else None
            else consTo (escaped e) (decodeBody rest1)
        end
      else if Ascii.eqb c dquote then None
      else if isLineTerminator c then None
      else consTo c (decodeBody rest)
  end.

(** Text that stands for itself between double quotes. *)
Definition plainChar (a : ascii) : bool :=
  negb (Ascii.eqb a backslash || Ascii.eqb a dquote || isLineTerminator a).

Fixpoint plain (s : string) : bool :=
  match s with
  | EmptyString => true
  | String a rest => plainChar a && plain rest
  end.

(** *** Statements *)

(** An exception raised inside the engine: [e.message] and [e.line] (absent
    when the engine reports none). *)
Record Exception := { message : string; line : option N }.

(** How a statement list ends: with the value of its last expression
    statement, or by an exception. *)
Inductive Completion (A : Type) :=
| Normal (a : A)
| Abrupt (e : Exception).
Arguments Normal {A} a.
Arguments Abrupt {A} e.

(** A piece of script, run on the state [App] of the application. *)
Definition Script (App A : Type) : Type := App -> Completion A * App.

(** The part of the application's object model the two templates touch.
    The state is the application with its active document; reading a length
    does not change it, the other operations may change it and may raise. *)
Class InDesign (App : Type) := {
  documentsLength : App -> Z;
  pagesLength : App -> Z;
  removePage : Z -> Script App unit;
  colorsAdd : Script App unit;
  setColorName : string -> Script App unit;
  setColorModel : string -> Script App unit;
  setColorSpace : string -> Script App unit;
  setColorValue : list Z -> Script App unit;
}.

Section Engine.

Context {App : Type} `{InDesign App}.

Definition value {A} (a : A) : Script App A := fun app => (Normal a, app).

Definition seq {A B} (m : Script App A) (k : A -> Script App B) : Script App B :=
  fun app =>
    match m app with
    | (Normal a, app') => k a app'
    | (Abrupt e, app') => (Abrupt e, app')
    end.

(** [try { body } catch (e) { handler }] *)
Definition tryCatch {A} (body : Script App A) (handler : Exception -> Script App A)
    : Script App A :=
  fun app =>
    match body app with
    | (Normal a, app') => (Normal a, app')
    | (Abrupt e, app') => handler e app'
    end.

(** [error.line || "unknown"], as text: a missing line and line 0 are
    falsy. *)
Definition lineOrUnknown (e : Exception) : string :=
  match line e with
  | Some l => if (l =? 0)%N then "unknown" else pretty l
  | None => "unknown"
  end.

(** The value of the [catch] block of the engine-level guard. *)
Definition errorText (e : Exception) : string :=
  "ERROR: " +:+ message e +:+ " (Line: " +:+ lineOrUnknown e +:+ ")".

(** The guard of [wrappedScript] around a payload that yields a text. *)
Definition guard (body : Script App string) : Script App string :=
  tryCatch body (fun error => value (errorText error)).

(** The payload of [deletePage] for a numeric page index. *)
Definition deletePageJs (pageIndex : Z) : Script App string :=
  fun app =>
    if documentsLength app =? 0 then value "No document open" app
    else
      tryCatch
        (fun app =>
           if (pageIndex >=? pagesLength app) || (pageIndex <? 0) then
             value ("Invalid page index: " +:+ pretty pageIndex
                    +:+ ". Document has " +:+ pretty (pagesLength app)
                    +:+ " pages.") app
           else if pagesLength app =? 1 then
             value "Cannot delete the last page in the document." app
           else
             seq (removePage pageIndex) (fun _ app =>
             value ("Page " +:+ pretty (pageIndex + 1)
                    +:+ " deleted. Remaining pages: "
                    +:+ pretty (pagesLength app)) app) app)
        (fun e => value ("Error deleting page: " +:+ message e))
        app.

(** The payload of [createColorSwatch]; [name], [colorModel] and [created]
    are the values of the string literals of the template, [colorValues] the
    numbers of its array literal. *)
Definition createColorSwatchJs
    (name colorModel : string) (colorValues : list Z) (spotColor : bool)
    (created : string) : Script App string :=
  fun app =>
    if documentsLength app =? 0 then value "No document open" app
    else
      tryCatch
        (seq (if String.eqb colorModel "CMYK" then
                seq colorsAdd (fun _ =>
                seq (setColorName name) (fun _ =>
                seq (setColorModel "SPOT") (fun _ =>
                seq (setColorValue colorValues) (fun _ =>
                setColorModel (if spotColor then "SPOT" else "PROCESS")))))
              else if String.eqb colorModel "RGB" then
                seq colorsAdd (fun _ =>
                seq (setColorName name) (fun _ =>
                seq (setColorModel "PROCESS") (fun _ =>
                seq (setColorSpace "RGB") (fun _ =>
                setColorValue colorValues))))
              else value tt)
           (fun _ => value created))
        (fun e => value ("Error creating color swatch: " +:+ message e))
        app.

End Engine.

(** *** From the arguments of a request to the meaning of its payload *)

(** The numbers of [colorValues], when it is an array of numbers (the array
    literal of the template is then a list of numeric literals). *)
Fixpoint numbers (items : list JsValue) : option (list Z) :=
  match items with
  | [] => Some []
  | JNum n :: rest =>
      match numbers rest with
      | Some l => Some (n :: l)
      | None => None
      end
  | _ :: _ => None
  end.

(** The script [deletePagePayload] renders, for an integer [pageIndex]. *)
Definition deletePageMeaning {App} `{InDesign App} (args : option Obj)
    : option (Script App string) :=
  match args with
  | Some o =>
      match get o "pageIndex" with
      | JNum pageIndex => Some (deletePageJs pageIndex)
      | _ => None
      end
  | None => None
  end.

(** The script [createColorSwatchPayload] renders, when [colorValues] is an
    array of numbers and each text put between double quotes is the body of
    one string literal. *)
Definition createColorSwatchMeaning {App} `{InDesign App} (args : option Obj)
    : option (Script App string) :=
  match args with
  | Some o =>
      let name := ToString (get o "name") in
      let colorModel := ToString (getOr o "colorModel" (JStr "CMYK")) in
      let spotColor := ToBoolean (getOr o "spotColor" (JBool false)) in
      match get o "colorValues" with
      | JArr items =>
          let joined := joinWith ", " (map elementText items) in
          match numbers items, decodeBody name, decodeBody colorModel,
                decodeBody ("Color swatch '" +:+ name +:+ "' created ("
                            +:+ colorModel +:+ ": " +:+ joined +:+ ")") with
          | Some values, Some name', Some colorModel', Some created =>
              Some (createColorSwatchJs name' colorModel' values spotColor created)
          | _, _, _, _ => None
          end
      | _ => None
      end
  | None => None
  end.

End ExtendScript.

(* ===================================================================== *)
(** ** Observing one call                                                  *)
(* ===================================================================== *)

(** The paths written to, in order. *)
Fixpoint writtenPaths (l : list Event) : list string :=
  match l with
  | [] => []
  | Written path _ :: rest => path :: writtenPaths rest
  | _ :: rest => writtenPaths rest
  end.

(** The shell commands started, each with its time limit, in order. *)
Fixpoint spawned (l : list Event) : list (string * N) :=
  match l with
  | [] => []
  | Spawned command timeout :: rest => (command, timeout) :: spawned rest
  | _ :: rest => spawned rest
  end.

(** The three ways the outer automation call fails, each with the
    diagnostic [execSync] attaches to its exception: the shell cannot be
    spawned, the command outlives the time limit, the command exits with a
    non-zero status. *)
Inductive TransportFailure (command : string) (c : Child) : string -> Prop :=
| spawn_failure diagnostic :
    ending c = SpawnFailed diagnostic ->
    TransportFailure command c diagnostic
| timed_out status stdout stderr :
    ending c = Exited status stdout stderr ->
    (30000 < elapsed c)%N ->
    TransportFailure command c timedOutMessage
| non_zero_exit status stdout stderr :
    ending c = Exited status stdout stderr ->
    (elapsed c <= 30000)%N ->
    status <> 0 ->
    TransportFailure command c (commandFailedMessage command stderr).

(** The outer automation call ends in time with status 0, and its output,
    trimmed, is [result]. *)
Definition Answers (c : Child) (result : string) : Prop :=
  (elapsed c <= 30000)%N /\
  exists stdout stderr, ending c = Exited 0 stdout stderr /\ trim stdout = result.

Section Observations.

Variable env : Env.

(** The run of [osascript] that [executeInDesignScript script] starts from
    the world [w]: it finds the files of [w] and the temporary script. *)
Definition issued (script : string) (w : World) : Child :=
  run env (osascriptCommand (appleScript env))
    (<[tempScript env := wrappedScript script]> (files w)).

(** What [executeAppleScript] makes of a finished child. *)
Definition relayed (c : Child) : Outcome string :=
  match ending c with
  | SpawnFailed diagnostic =>
      Throw (Error ("AppleScript execution failed: " +:+ diagnostic))
  | Exited status stdout stderr =>
      if (30000 <? elapsed c)%N then
        Throw (Error ("AppleScript execution failed: " +:+ timedOutMessage))
      else if status =? 0 then Return (trim stdout)
      else
        Throw (Error ("AppleScript execution failed: "
                      +:+ commandFailedMessage
                            (osascriptCommand (appleScript env)) stderr))
  end.

(** The events one call of [executeInDesignScript] adds. *)
Definition transportEvents (script : string) (w : World) : list Event :=
  [Written (tempScript env) (wrappedScript script);
   Spawned (osascriptCommand (appleScript env)) 30000]
  ++ (if bool_decide (is_Some (files_after (issued script w) !! tempScript env))
      then [Unlinked (tempScript env)] else []).

(** The world one call of [executeInDesignScript] leaves behind. *)
Definition afterTransport (script : string) (w : World) : World :=
  {| files := delete (tempScript env) (files_after (issued script w));
     events := events w ++ transportEvents script w |}.

(** The [catch] clause of the handler: what it makes of a method's end. *)
Definition caught (tool : string) (r : Outcome Response * World)
    : Outcome Response * World :=
  match r with
  | (Return response, w) => (Return response, w)
  | (Throw error, w) =>
      (Throw (newMcpError env InternalError
                ("Error executing tool " +:+ tool +:+ ": " +:+ Node.message error)),
       w)
  end.

End Observations.

Arguments issued : simpl never.
Arguments relayed : simpl never.
Arguments transportEvents : simpl never.
Arguments afterTransport : simpl never.

(** The [required] list of each tool's [inputSchema], in the order of the
    catalog. *)
Definition inputSchemaRequired : list (string * list string) := [
  ("get_document_info", []);
  ("create_document", []);
  ("open_document", ["filePath"]);
  ("save_document", []);
  ("close_document", []);
  ("add_page", []);
  ("delete_page", ["pageIndex"]);
  ("duplicate_page", ["pageIndex"]);
  ("navigate_to_page", ["pageIndex"]);
  ("create_text_frame", ["content"]);
  ("edit_text_frame", ["frameIndex"]);
  ("find_replace_text", ["findText"; "replaceText"]);
  ("place_image", ["imagePath"]);
  ("create_rectangle", ["x"; "y"; "width"; "height"]);
  ("create_ellipse", ["x"; "y"; "width"; "height"]);
  ("create_paragraph_style", ["name"]);
  ("create_character_style", ["name"]);
  ("apply_paragraph_style", ["styleName"; "frameIndex"]);
  ("list_styles", []);
  ("create_color_swatch", ["name"; "colorValues"]);
  ("list_color_swatches", []);
  ("apply_color", ["objectIndex"; "swatchName"]);
  ("create_table", ["x"; "y"; "width"; "height"; "rows"; "columns"]);
  ("populate_table", ["tableIndex"; "data"]);
  ("create_layer", ["name"]);
  ("set_active_layer", ["layerName"]);
  ("list_layers", []);
  ("export_pdf", ["filePath"]);
  ("export_images", ["folderPath"]);
  ("export_epub", ["filePath"]);
  ("package_document", ["folderPath"]);
  ("execute_indesign_code", ["code"]);
  ("preflight_document", []);
  ("view_document", []);
  ("zoom_to_page", []);
  ("data_merge", ["dataSourcePath"; "outputFolder"])
].

(** The parameters a tool declares as required. *)
Definition required (tool : string) : list string :=
  default [] (switch tool inputSchemaRequired).

(** The fixed texts the theorems mention. *)
Definition lastPageRefusal : string :=
  "Cannot delete the last page in the document.".

Definition swatchCreated (name colorModel : string) (values : list Z) : string :=
  "Color swatch '" +:+ name +:+ "' created (" +:+ colorModel +:+ ": "
  +:+ joinWith ", " (map pretty values) +:+ ")".

(** What [escapeContent] makes of one character. *)
Definition escapeChar (a : ascii) : string :=
  if Ascii.eqb a dquote then bs +:+ dq
  else if Ascii.eqb a LF then bs +:+ "n"
  else String a "".

(** Text without a backslash and without a carriage return. *)
Fixpoint tame (s : string) : bool :=
  match s with
  | EmptyString => true
  | String a rest => negb (Ascii.eqb a backslash || Ascii.eqb a CR) && tame rest
  end.

(** The text of the guard before and after the payload. *)
Definition guardOpen : string :=
  lines [""; sp 6 "try {"; sp 8 ""].

Definition guardClose : string :=
  nl +:+
  lines [
    sp 6 "} catch (error) {";
    sp 8 (q "ERROR: " +:+ " + error.message + " +:+ q " (Line: "
          +:+ " + (error.line || " +:+ q "unknown" +:+ ") + " +:+ q ")" +:+ ";");
    sp 6 "}";
    sp 4 ""
  ].

(* ===================================================================== *)
(** ** A small application and a few machines, for the examples            *)
(* ===================================================================== *)

Module Desk.

Import ExtendScript.

Record Swatch := {
  swatchName : string;
  model : string;
  space : string;
  colorValue : list Z;
}.

(** An application with at most one document: whether it is open, its
    number of pages, its swatches (newest first). *)
Record App := { documents : nat; pages : Z; swatches : list Swatch }.

Definition invalid : Exception :=
  {| message := "Object is invalid"; line := Some 12%N |}.

Definition onNewest (f : Swatch -> Swatch) : Script App unit :=
  fun app =>
    match swatches app with
    | s :: rest =>
        (Normal tt,
         {| documents := documents app; pages := pages app;
            swatches := f s :: rest |})
    | [] => (Abrupt invalid, app)
    end.

#[global] Instance desk : InDesign App := {|
  documentsLength app := Z.of_nat (documents app);
  pagesLength app := pages app;
  removePage i := fun app =>
    if (0 <=? i) && (i <? pages app) then
      (Normal tt,
       {| documents := documents app; pages := pages app - 1;
          swatches := swatches app |})
    else (Abrupt invalid, app);
  colorsAdd := fun app =>
    (Normal tt,
     {| documents := documents app; pages := pages app;
        swatches := {| swatchName := "New Color Swatch"; model := "PROCESS";
                       space := "CMYK"; colorValue := [0; 0; 0; 100] |}
                    :: swatches app |});
  setColorName n := onNewest (fun s =>
    {| swatchName := n; model := model s; space := space s;
       colorValue := colorValue s |});
  setColorModel m := onNewest (fun s =>
    {| swatchName := swatchName s; model := m; space := space s;
       colorValue := colorValue s |});
  setColorSpace sp := onNewest (fun s =>
    {| swatchName := swatchName s; model := model s; space := sp;
       colorValue := colorValue s |});
  setColorValue v := onNewest (fun s =>
    {| swatchName := swatchName s; model := model s; space := space s;
       colorValue := v |});
|}.

(** A one-page document without swatches. *)
Definition onePage : App := {| documents := 1; pages := 1; swatches := [] |}.

End Desk.

Module Demo.

(** The message the SDK's [McpError] builds. *)
Definition sdkMessage (code : ErrorCode) (text : string) : string :=
  "MCP error "
  +:+ match code with MethodNotFound => "-32601" | InternalError => "-32603" end
  +:+ ": " +:+ text.

Definition server (run : string -> gmap string string -> Child) : Env :=
  {| dirname := "/srv/indesign-mcp-server";
     run := run;
     mcpMessage := sdkMessage;
     payload := fun _ _ => Return "app.documents.length;" |}.

(** Machines on which every command, in turn: prints [stdout] and exits
    with status 0 after 850 ms; needs 45 s; cannot be spawned; exits with
    status 1. *)
Definition prints (stdout : string) (_ : string) (fs : gmap string string) : Child :=
  {| elapsed := 850; ending := Exited 0 stdout ""; files_after := fs |}.

Definition hangs (_ : string) (fs : gmap string string) : Child :=
  {| elapsed := 45000; ending := Exited 0 "" ""; files_after := fs |}.

Definition missing (_ : string) (fs : gmap string string) : Child :=
  {| elapsed := 2; ending := SpawnFailed "spawnSync /bin/sh ENOENT";
     files_after := fs |}.

Definition broken (_ : string) (fs : gmap string string) : Child :=
  {| elapsed := 400;
     ending := Exited 1 "" "execution error: Application is not running. (-600)";
     files_after := fs |}.

(** A machine whose application is [app] and runs the script [sc] under the
    guard: [osascript] prints the value and a line feed. *)
Definition hosts (sc : ExtendScript.Script Desk.App string) (app : Desk.App)
    (_ : string) (fs : gmap string string) : Child :=
  {| elapsed := 850;
     ending :=
       match fst (ExtendScript.guard sc app) with
       | ExtendScript.Normal v => Exited 0 (v +:+ nl) ""
       | ExtendScript.Abrupt e => Exited 1 "" (ExtendScript.message e)
       end;
     files_after := fs |}.

(** A payload that calls a function the engine does not know. *)
Definition throwing : ExtendScript.Script Desk.App string :=
  fun app =>
    (ExtendScript.Abrupt
       {| ExtendScript.message := "undefinedFunction is not a function";
          ExtendScript.line := Some 3%N |},
     app).

Definition start : World := {| files := ∅; events := [] |}.

End Demo.

(* ===================================================================== *)
(** ** More of the bridge: the shell, and three more tool methods          *)
(* ===================================================================== *)

(** *** How the shell reads the argument of [osascript -e] *)

Module Shell.

Inductive Quoting := Bare | Single | Double.

(** [word q s]: the text of the shell word [s], read from the quoting state
    [q]. The word is made of single-quoted and double-quoted pieces: between
    single quotes every character stands for itself; between double quotes
    every character but the backslash, the dollar and the backquote does.
    [None] for a word with a character outside quotes, with one of those
    three between double quotes, or with a quote left open. *)
Fixpoint word (q : Quoting) (s : string) : option string :=
  match s with
  | EmptyString => match q with Bare => Some EmptyString | _ => None end
  | String a rest =>
      match q with
      | Bare =>
          if Ascii.eqb a squote then word Single rest
          else if Ascii.eqb a dquote then word Double rest
          else None
      | Single =>
          if Ascii.eqb a squote then word Bare rest
          else ExtendScript.consTo a (word Single rest)
      | Double =>
          if Ascii.eqb a dquote then word Bare rest
          else if Ascii.eqb a backslash || Ascii.eqb a "$" || Ascii.eqb a "`"
          then None
          else ExtendScript.consTo a (word Double rest)
      end
  end.

End Shell.

(** *** navigateToPage, zoomToPage, createDocument: the templates *)

(** [v === 'text'] and [v !== undefined] *)
Definition strictEquals (v : JsValue) (text : string) : bool :=
  match v with
  | JStr s => String.eqb s text
  | _ => false
  end.

Definition defined (v : JsValue) : bool :=
  match v with
  | JUndefined => false
  | _ => true
  end.

Definition navigateToPageScript (pageIndex : string) : string :=
  lines [
    "";
    sp 6 "if (app.documents.length === 0) {";
    sp 8 (q "No document open" +:+ ";");
    sp 6 "} else {";
    sp 8 "var doc = app.activeDocument;";
    sp 8 "try {";
    sp 10 ("if (" +:+ pageIndex +:+ " >= doc.pages.length || " +:+ pageIndex
           +:+ " < 0) {");
    sp 12 (q ("Invalid page index: " +:+ pageIndex +:+ ". Document has ")
           +:+ " + doc.pages.length + " +:+ q " pages." +:+ ";");
    sp 10 "} else {";
    sp 12 ("app.activeWindow.activePage = doc.pages[" +:+ pageIndex +:+ "];");
    sp 12 (q "Navigated to page " +:+ " + (" +:+ pageIndex +:+ " + 1);");
    sp 10 "}";
    sp 8 "} catch (e) {";
    sp 10 (q "Error navigating to page: " +:+ " + e.message;");
    sp 8 "}";
    sp 6 "}";
    sp 4 ""
  ].

Definition navigateToPagePayload (args : option Obj) : Outcome string :=
  andThen (destructure "pageIndex" args) (fun args =>
  let pageIndex := get args "pageIndex" in
  Return (navigateToPageScript (ToString pageIndex))).

(** The clause of [zoomToPage] for a given page:
    [${pageIndex !== undefined ? `...` : ''}]. *)
Definition zoomPageClause (pageIndex : JsValue) : string :=
  if defined pageIndex then
    lines [
      "";
      sp 12 ("if (" +:+ ToString pageIndex +:+ " >= 0 && " +:+ ToString pageIndex
             +:+ " < doc.pages.length) {");
      sp 14 ("app.activeWindow.activePage = doc.pages[" +:+ ToString pageIndex
             +:+ "];");
      sp 12 "}";
      sp 10 ""
    ]
  else "".

(** [${pageIndex !== undefined ? ` on page ${pageIndex + 1}` : ''}] *)
Definition zoomPageSuffix (pageIndex : JsValue) : string :=
  if defined pageIndex then " on page " +:+ ToString (add pageIndex (JNum 1))
  else "".

Definition zoomToPageScript (pageClause fitOption pageSuffix : string) : string :=
  lines [
    "";
    sp 6 "if (app.documents.length === 0) {";
    sp 8 (q "No document open" +:+ ";");
    sp 6 "} else {";
    sp 8 "var doc = app.activeDocument;";
    sp 8 "try {";
    sp 10 pageClause;
    sp 10 "";
    sp 10 ("switch (" +:+ q fitOption +:+ ") {");
    sp 12 ("case " +:+ q "FIT_PAGE" +:+ ":");
    sp 14 "app.activeWindow.zoom(ZoomOptions.FIT_PAGE);";
    sp 14 "break;";
    sp 12 ("case " +:+ q "FIT_SPREAD" +:+ ":");
    sp 14 "app.activeWindow.zoom(ZoomOptions.FIT_SPREAD);";
    sp 14 "break;";
    sp 12 ("case " +:+ q "ACTUAL_SIZE" +:+ ":");
    sp 14 "app.activeWindow.zoom(ZoomOptions.ACTUAL_SIZE);";
    sp 14 "break;";
    sp 12 "default:";
    sp 14 "app.activeWindow.zoom(ZoomOptions.FIT_PAGE);";
    sp 10 "}";
    sp 10 "";
    sp 10 (q ("Zoom applied: " +:+ fitOption +:+ pageSuffix) +:+ ";");
    sp 8 "} catch (e) {";
    sp 10 (q "Error zooming: " +:+ " + e.message;");
    sp 8 "}";
    sp 6 "}";
    sp 4 ""
  ].

Definition zoomToPagePayload (args : option Obj) : Outcome string :=
  andThen (destructure "pageIndex" args) (fun args =>
  let pageIndex := get args "pageIndex" in
  let fitOption := getOr args "fitOption" (JStr "FIT_PAGE") in
  Return (zoomToPageScript (zoomPageClause pageIndex) (ToString fitOption)
            (zoomPageSuffix pageIndex))).

(** [${orientation === 'Landscape' ? landscape : portrait}] *)
Definition byOrientation (orientation : JsValue) (landscape portrait : string)
    : string :=
  if strictEquals orientation "Landscape" then landscape else portrait.

(** [preset === 'Custom' && width && height] *)
Definition customSize (preset width height : JsValue) : bool :=
  strictEquals preset "Custom" && ToBoolean width && ToBoolean height.

(** The clause that sets the page size:
    [${preset === 'Custom' && width && height ? `...` : `...`}]. *)
Definition sizeClause (preset width height orientation : JsValue) : string :=
  if customSize preset width height then
    lines [
      "";
      sp 8 ("doc.documentPreferences.pageWidth = " +:+ q (ToString width +:+ "mm")
            +:+ ";");
      sp 8 ("doc.documentPreferences.pageHeight = " +:+ q (ToString height +:+ "mm")
            +:+ ";");
      sp 6 ""
    ]
  else
    lines [
      "";
      sp 8 "// Standard presets";
      sp 8 ("if (" +:+ q (ToString preset) +:+ " === " +:+ q "A4" +:+ ") {");
      sp 10 ("doc.documentPreferences.pageWidth = "
             +:+ q (byOrientation orientation "297mm" "210mm") +:+ ";");
      sp 10 ("doc.documentPreferences.pageHeight = "
             +:+ q (byOrientation orientation "210mm" "297mm") +:+ ";");
      sp 8 ("} else if (" +:+ q (ToString preset) +:+ " === " +:+ q "A5" +:+ ") {");
      sp 10 ("doc.documentPreferences.pageWidth = "
             +:+ q (byOrientation orientation "210mm" "148mm") +:+ ";");
      sp 10 ("doc.documentPreferences.pageHeight = "
             +:+ q (byOrientation orientation "148mm" "210mm") +:+ ";");
      sp 8 ("} else if (" +:+ q (ToString preset) +:+ " === " +:+ q "A3" +:+ ") {");
      sp 10 ("doc.documentPreferences.pageWidth = "
             +:+ q (byOrientation orientation "420mm" "297mm") +:+ ";");
      sp 10 ("doc.documentPreferences.pageHeight = "
             +:+ q (byOrientation orientation "297mm" "420mm") +:+ ";");
      sp 8 ("} else if (" +:+ q (ToString preset) +:+ " === " +:+ q "Letter" +:+ ") {");
      sp 10 ("doc.documentPreferences.pageWidth = "
             +:+ q (byOrientation orientation "279.4mm" "215.9mm") +:+ ";");
      sp 10 ("doc.documentPreferences.pageHeight = "
             +:+ q (byOrientation orientation "215.9mm" "279.4mm") +:+ ";");
      sp 8 ("} else if (" +:+ q (ToString preset) +:+ " === " +:+ q "Legal" +:+ ") {");
      sp 10 ("doc.documentPreferences.pageWidth = "
             +:+ q (byOrientation orientation "355.6mm" "215.9mm") +:+ ";");
      sp 10 ("doc.documentPreferences.pageHeight = "
             +:+ q (byOrientation orientation "215.9mm" "355.6mm") +:+ ";");
      sp 8 "}";
      sp 6 ""
    ].

Definition createDocumentScript
    (size preset facingPages pages bleed slug
     marginTop marginBottom marginLeft marginRight : string) : string :=
  lines [
    "";
    sp 6 "var doc = app.documents.add();";
    sp 6 "";
    sp 6 "// Set measurement units to millimeters";
    sp 6 "doc.viewPreferences.horizontalMeasurementUnits = MeasurementUnits.MILLIMETERS;";
    sp 6 "doc.viewPreferences.verticalMeasurementUnits = MeasurementUnits.MILLIMETERS;";
    sp 6 "";
    sp 6 "// Set document dimensions";
    sp 6 size;
    sp 6 "";
    sp 6 "// Document setup";
    sp 6 ("doc.documentPreferences.facingPages = " +:+ facingPages +:+ ";");
    sp 6 ("doc.documentPreferences.pagesPerDocument = " +:+ pages +:+ ";");
    sp 6 "";
    sp 6 "// Bleed and slug";
    sp 6 ("if (" +:+ bleed +:+ " > 0) {");
    sp 8 ("doc.documentPreferences.documentBleedTopOffset = "
          +:+ q (bleed +:+ "mm") +:+ ";");
    sp 8 ("doc.documentPreferences.documentBleedBottomOffset = "
          +:+ q (bleed +:+ "mm") +:+ ";");
    sp 8 ("doc.documentPreferences.documentBleedInsideOrLeftOffset = "
          +:+ q (bleed +:+ "mm") +:+ ";");
    sp 8 ("doc.documentPreferences.documentBleedOutsideOrRightOffset = "
          +:+ q (bleed +:+ "mm") +:+ ";");
    sp 6 "}";
    sp 6 "";
    sp 6 ("if (" +:+ slug +:+ " > 0) {");
    sp 8 ("doc.documentPreferences.slugTopOffset = " +:+ q (slug +:+ "mm") +:+ ";");
    sp 8 ("doc.documentPreferences.slugBottomOffset = " +:+ q (slug +:+ "mm") +:+ ";");
    sp 8 ("doc.documentPreferences.slugInsideOrLeftOffset = "
          +:+ q (slug +:+ "mm") +:+ ";");
    sp 8 ("doc.documentPreferences.slugRightOrOutsideOffset = "
          +:+ q (slug +:+ "mm") +:+ ";");
    sp 6 "}";
    sp 6 "";
    sp 6 "// Margins";
    sp 6 ("doc.marginPreferences.top = " +:+ q (marginTop +:+ "mm") +:+ ";");
    sp 6 ("doc.marginPreferences.bottom = " +:+ q (marginBottom +:+ "mm") +:+ ";");
    sp 6 ("doc.marginPreferences.left = " +:+ q (marginLeft +:+ "mm") +:+ ";");
    sp 6 ("doc.marginPreferences.right = " +:+ q (marginRight +:+ "mm") +:+ ";");
    sp 6 "";
    sp 6 (q "Document created: " +:+ " + " +:+ q preset +:+ " + " +:+ q " ("
          +:+ " + doc.documentPreferences.pageWidth + " +:+ q " x "
          +:+ " + doc.documentPreferences.pageHeight + " +:+ q "), " +:+ " + ");
    sp 6 ("doc.pages.length + " +:+ q " pages, "
          +:+ " + (doc.documentPreferences.facingPages ? " +:+ q "facing pages"
          +:+ " : " +:+ q "single pages" +:+ ");");
    sp 4 ""
  ].

Definition createDocumentPayload (args : option Obj) : Outcome string :=
  andThen (destructure "preset" args) (fun args =>
  let preset := getOr args "preset" (JStr "A4") in
  let width := get args "width" in
  let height := get args "height" in
  let orientation := getOr args "orientation" (JStr "Portrait") in
  let pages := getOr args "pages" (JNum 1) in
  let facingPages := getOr args "facingPages" (JBool false) in
  let bleed := getOr args "bleed" (JNum 0) in
  let slug := getOr args "slug" (JNum 0) in
  let marginTop := getOr args "marginTop" (JNum 20) in
  let marginBottom := getOr args "marginBottom" (JNum 20) in
  let marginLeft := getOr args "marginLeft" (JNum 20) in
  let marginRight := getOr args "marginRight" (JNum 20) in
  Return (createDocumentScript
            (sizeClause preset width height orientation)
            (ToString preset) (ToString facingPages) (ToString pages)
            (ToString bleed) (ToString slug)
            (ToString marginTop) (ToString marginBottom)
            (ToString marginLeft) (ToString marginRight))).

(** *** navigateToPage, zoomToPage, createDocument: what the payloads do *)

Module Layout.

Import ExtendScript.

(** The window of the application: [app.activeWindow.activePage =
    doc.pages[i]] and [app.activeWindow.zoom(ZoomOptions.<option>)]. *)
Class Window (App : Type) := {
  setActivePage : Z -> Script App unit;
  zoom : string -> Script App unit;
}.

(** The right-hand side of an assignment: a value, or a named constant of
    the object model such as [MeasurementUnits.MILLIMETERS]. *)
Inductive Assigned :=
| Val (v : JsValue)
| Constant (name : string).

(** Creating a document and setting its preferences: [app.documents.add()],
    [<property> = <value>], and the properties the last statement reads,
    as text and as a condition. *)
Class Preferences (App : Type) := {
  documentsAdd : Script App unit;
  assign : string -> Assigned -> Script App unit;
  readText : string -> App -> string;
  readFlag : string -> App -> bool;
}.

Section Payloads.

Context {App : Type} `{InDesign App} `{Window App} `{Preferences App}.

(** The payload of [navigateToPage] for a numeric page index. *)
Definition navigateToPageJs (pageIndex : Z) : Script App string :=
  fun app =>
    if documentsLength app =? 0 then value "No document open" app
    else
      tryCatch
        (fun app =>
           if (pageIndex >=? pagesLength app) || (pageIndex <? 0) then
             value ("Invalid page index: " +:+ pretty pageIndex
                    +:+ ". Document has " +:+ pretty (pagesLength app)
                    +:+ " pages.") app
           else
             seq (setActivePage pageIndex) (fun _ =>
             value ("Navigated to page " +:+ pretty (pageIndex + 1))) app)
        (fun e => value ("Error navigating to page: " +:+ message e))
        app.

(** The [switch] of [zoomToPage]: the option the window is zoomed to. *)
Definition zoomOption (fitOption : string) : string :=
  if String.eqb fitOption "FIT_PAGE" then "FIT_PAGE"
  else if String.eqb fitOption "FIT_SPREAD" then "FIT_SPREAD"
  else if String.eqb fitOption "ACTUAL_SIZE" then "ACTUAL_SIZE"
  else "FIT_PAGE".

(** The payload of [zoomToPage]: [pageIndex] is the numeric index when the
    page clause was rendered, [fitOption] and [applied] are the values of
    the two string literals. *)
Definition zoomToPageJs (pageIndex : option Z) (fitOption applied : string)
    : Script App string :=
  fun app =>
    if documentsLength app =? 0 then value "No document open" app
    else
      tryCatch
        (seq (fun app =>
                match pageIndex with
                | Some i =>
                    if (i >=? 0) && (i <? pagesLength app)
                    then setActivePage i app
                    else value tt app
                | None => value tt app
                end)
           (fun _ =>
            seq (zoom (zoomOption fitOption)) (fun _ => value applied)))
        (fun e => value ("Error zooming: " +:+ message e))
        app.

Definition pageWidth : string := "doc.documentPreferences.pageWidth".
Definition pageHeight : string := "doc.documentPreferences.pageHeight".

(** Both dimensions of the page. *)
Definition setSize (width height : string) : Script App unit :=
  seq (assign pageWidth (Val (JStr width))) (fun _ =>
  assign pageHeight (Val (JStr height))).

(** The size clause of [createDocument]: [custom] holds the values of the
    two literals of the custom branch when that branch was rendered;
    otherwise the chain over the standard presets runs, on the value
    [preset] of the literal it compares. *)
Definition sizeJs (custom : option (string * string)) (preset : string)
    (orientation : JsValue) : Script App unit :=
  match custom with
  | Some (width, height) => setSize width height
  | None =>
      if String.eqb preset "A4" then
        setSize (byOrientation orientation "297mm" "210mm")
                (byOrientation orientation "210mm" "297mm")
      else if String.eqb preset "A5" then
        setSize (byOrientation orientation "210mm" "148mm")
                (byOrientation orientation "148mm" "210mm")
      else if String.eqb preset "A3" then
        setSize (byOrientation orientation "420mm" "297mm")
                (byOrientation orientation "297mm" "420mm")
      else if String.eqb preset "Letter" then
        setSize (byOrientation orientation "279.4mm" "215.9mm")
                (byOrientation orientation "215.9mm" "279.4mm")
      else if String.eqb preset "Legal" then
        setSize (byOrientation orientation "355.6mm" "215.9mm")
                (byOrientation orientation "215.9mm" "355.6mm")
      else value tt
  end.

(** [if (<offset> > 0) { ... }]: four offsets set to ["<offset>mm"]. *)
Definition offsetsJs (offset : Z) (p1 p2 p3 p4 : string) : Script App unit :=
  if offset >? 0 then
    seq (assign p1 (Val (JStr (pretty offset +:+ "mm")))) (fun _ =>
    seq (assign p2 (Val (JStr (pretty offset +:+ "mm")))) (fun _ =>
    seq (assign p3 (Val (JStr (pretty offset +:+ "mm")))) (fun _ =>
    assign p4 (Val (JStr (pretty offset +:+ "mm"))))))
  else value tt.

(** The last statement of [createDocument]. *)
Definition createdText (preset : string) (app : App) : string :=
  "Document created: " +:+ preset +:+ " (" +:+ readText pageWidth app
  +:+ " x " +:+ readText pageHeight app +:+ "), "
  +:+ pretty (pagesLength app) +:+ " pages, "
  +:+ (if readFlag "doc.documentPreferences.facingPages" app
       then "facing pages" else "single pages").

(** The payload of [createDocument]. It has no [try] of its own. *)
Definition createDocumentJs
    (custom : option (string * string)) (preset : string) (orientation : JsValue)
    (facingPages : bool) (pages bleed slug : Z)
    (marginTop marginBottom marginLeft marginRight : string)
    : Script App string :=
  seq documentsAdd (fun _ =>
  seq (assign "doc.viewPreferences.horizontalMeasurementUnits"
         (Constant "MeasurementUnits.MILLIMETERS")) (fun _ =>
  seq (assign "doc.viewPreferences.verticalMeasurementUnits"
         (Constant "MeasurementUnits.MILLIMETERS")) (fun _ =>
  seq (sizeJs custom preset orientation) (fun _ =>
  seq (assign "doc.documentPreferences.facingPages" (Val (JBool facingPages)))
    (fun _ =>
  seq (assign "doc.documentPreferences.pagesPerDocument" (Val (JNum pages)))
    (fun _ =>
  seq (offsetsJs bleed
         "doc.documentPreferences.documentBleedTopOffset"
         "doc.documentPreferences.documentBleedBottomOffset"
         "doc.documentPreferences.documentBleedInsideOrLeftOffset"
         "doc.documentPreferences.documentBleedOutsideOrRightOffset") (fun _ =>
  seq (offsetsJs slug
         "doc.documentPreferences.slugTopOffset"
         "doc.documentPreferences.slugBottomOffset"
         "doc.documentPreferences.slugInsideOrLeftOffset"
         "doc.documentPreferences.slugRightOrOutsideOffset") (fun _ =>
  seq (assign "doc.marginPreferences.top" (Val (JStr marginTop))) (fun _ =>
  seq (assign "doc.marginPreferences.bottom" (Val (JStr marginBottom))) (fun _ =>
  seq (assign "doc.marginPreferences.left" (Val (JStr marginLeft))) (fun _ =>
  seq (assign "doc.marginPreferences.right" (Val (JStr marginRight))) (fun _ =>
  fun app => value (createdText preset app) app)))))))))))).

(** *** From the arguments of a request to the meaning of its payload *)

Definition integer (v : JsValue) : option Z :=
  match v with
  | JNum n => Some n
  | _ => None
  end.

Definition boolean (v : JsValue) : option bool :=
  match v with
  | JBool b => Some b
  | _ => None
  end.

(** The script [navigateToPagePayload] renders, for an integer index. *)
Definition navigateToPageMeaning (args : option Obj)
    : option (Script App string) :=
  match args with
  | Some o =>
      match get o "pageIndex" with
      | JNum pageIndex => Some (navigateToPageJs pageIndex)
      | _ => None
      end
  | None => None
  end.

(** The script [zoomToPagePayload] renders, for an integer or absent index
    and texts that are the bodies of string literals. *)
Definition zoomToPageMeaning (args : option Obj) : option (Script App string) :=
  match args with
  | Some o =>
      let pageIndex := get o "pageIndex" in
      let fitOption := ToString (getOr o "fitOption" (JStr "FIT_PAGE")) in
      match decodeBody fitOption,
            decodeBody ("Zoom applied: " +:+ fitOption +:+ zoomPageSuffix pageIndex)
      with
      | Some option, Some applied =>
          match pageIndex with
          | JUndefined => Some (zoomToPageJs None option applied)
          | JNum i => Some (zoomToPageJs (Some i) option applied)
          | _ => None
          end
      | _, _ => None
      end
  | None => None
  end.

(** The script [createDocumentPayload] renders, when [facingPages] is a
    boolean, [pages], [bleed] and [slug] are integers, and each text put
    between double quotes is the body of one string literal. *)
Definition createDocumentMeaning (args : option Obj)
    : option (Script App string) :=
  match args with
  | Some o =>
      let preset := getOr o "preset" (JStr "A4") in
      let width := get o "width" in
      let height := get o "height" in
      let orientation := getOr o "orientation" (JStr "Portrait") in
      presetText ← decodeBody (ToString preset);
      custom ←
        (if customSize preset width height then
           w ← decodeBody (ToString width +:+ "mm");
           h ← decodeBody (ToString height +:+ "mm");
           Some (Some (w, h))
         else Some None);
      facingPages ← boolean (getOr o "facingPages" (JBool false));
      pages ← integer (getOr o "pages" (JNum 1));
      bleed ← integer (getOr o "bleed" (JNum 0));
      slug ← integer (getOr o "slug" (JNum 0));
      marginTop ← decodeBody (ToString (getOr o "marginTop" (JNum 20)) +:+ "mm");
      marginBottom ←
        decodeBody (ToString (getOr o "marginBottom" (JNum 20)) +:+ "mm");
      marginLeft ← decodeBody (ToString (getOr o "marginLeft" (JNum 20)) +:+ "mm");
      marginRight ←
        decodeBody (ToString (getOr o "marginRight" (JNum 20)) +:+ "mm");
      Some (createDocumentJs custom presetText orientation facingPages
              pages bleed slug marginTop marginBottom marginLeft marginRight)
  | None => None
  end.

End Payloads.

End Layout.

(** *** An application with a window and preferences, for the examples *)

Module Studio.

Import ExtendScript Layout.

(** The open documents (the newest is the active one, described by the
    other fields): its number of pages, the page shown in the window, the
    last zoom applied, and the preferences assigned so far. *)
Record App := {
  documents : nat;
  pages : Z;
  activePage : Z;
  zoomed : string;
  preferences : gmap string Assigned;
}.

Definition invalid : Exception :=
  {| message := "Object is invalid"; line := Some 4%N |}.

Definition unsupported : Script App unit := fun app => (Abrupt invalid, app).

#[global] Instance studio : InDesign App := {|
  documentsLength app := Z.of_nat (documents app);
  pagesLength app := pages app;
  removePage i := fun app =>
    if (0 <=? i) && (i <? pages app) then
      (Normal tt,
       {| documents := documents app; pages := pages app - 1;
          activePage := activePage app; zoomed := zoomed app;
          preferences := preferences app |})
    else (Abrupt invalid, app);
  colorsAdd := unsupported;
  setColorName _ := unsupported;
  setColorModel _ := unsupported;
  setColorSpace _ := unsupported;
  setColorValue _ := unsupported;
|}.

#[global] Instance window : Window App := {|
  setActivePage i := fun app =>
    if (0 <=? i) && (i <? pages app) then
      (Normal tt,
       {| documents := documents app; pages := pages app;
          activePage := i; zoomed := zoomed app;
          preferences := preferences app |})
    else (Abrupt invalid, app);
  zoom option := fun app =>
    (Normal tt,
     {| documents := documents app; pages := pages app;
        activePage := activePage app; zoomed := option;
        preferences := preferences app |});
|}.

Definition shown (a : option Assigned) : JsValue :=
  match a with
  | Some (Val v) => v
  | Some (Constant name) => JStr name
  | None => JUndefined
  end.

#[global] Instance prefs : Preferences App := {|
  documentsAdd := fun app =>
    (Normal tt,
     {| documents := S (documents app); pages := 1; activePage := 0;
        zoomed := zoomed app; preferences := ∅ |});
  assign property value := fun app =>
    (Normal tt,
     {| documents := documents app; pages := pages app;
        activePage := activePage app; zoomed := zoomed app;
        preferences := <[property := value]> (preferences app) |});
  readText property app := ToString (shown (preferences app !! property));
  readFlag property app := ToBoolean (shown (preferences app !! property));
|}.

(** A document of three pages, the first one shown. *)
Definition threePages : App :=
  {| documents := 1; pages := 3; activePage := 0; zoomed := "ACTUAL_SIZE";
     preferences := ∅ |}.

(** No document at all. *)
Definition idle : App :=
  {| documents := 0; pages := 0; activePage := 0; zoomed := "";
     preferences := ∅ |}.

End Studio.

(* ===================================================================== *)
(** ** Facts about the transport                                           *)
(* ===================================================================== *)

Section TransportFacts.

Variable env : Env.

Lemma executeAppleScript_run script w :
  executeAppleScript env script w =
  (let c := run env (osascriptCommand script) (files w) in
   match ending c with
   | SpawnFailed diagnostic =>
       Throw (Error ("AppleScript execution failed: " +:+ diagnostic))
   | Exited status stdout stderr =>
       if (30000 <? elapsed c)%N then
         Throw (Error ("AppleScript execution failed: " +:+ timedOutMessage))
       else if status =? 0 then Return (trim stdout)
       else
         Throw (Error ("AppleScript execution failed: "
                       +:+ commandFailedMessage (osascriptCommand script) stderr))
   end,
   {| files := files_after (run env (osascriptCommand script) (files w));
      events := events w ++ [Spawned (osascriptCommand script) 30000] |}).
Proof.
  unfold executeAppleScript, try_catch, bind, execSync, ret, throw; cbn.
  destruct (ending _) as [d | st out err]; cbn; [reflexivity |].
  destruct (30000 <? _)%N; cbn; [reflexivity |].
  destruct (st =? 0); reflexivity.
Qed.

(** The [finally] block: afterwards the temporary script is gone. *)
Lemma cleanup_run w :
  (present <- existsSync (tempScript env) ;;
   if present then unlinkSync (tempScript env) else ret tt) w
  = (Return tt,
     {| files := delete (tempScript env) (files w);
        events := events w ++
          (if bool_decide (is_Some (files w !! tempScript env))
           then [Unlinked (tempScript env)] else []) |}).
Proof.
  unfold bind, existsSync.
  case_bool_decide as Hp.
  - reflexivity.
  - unfold ret. rewrite app_nil_r. f_equal. destruct w as [fs ev]; cbn in *.
    f_equal. symmetry. apply delete_id.
    destruct (fs !! tempScript env) eqn:E; [exfalso; apply Hp; eauto | reflexivity].
Qed.

Lemma try_finally_returns {A} (body : M A) (final : M unit) w r w1 w2 :
  body w = (r, w1) -> final w1 = (Return tt, w2) ->
  try_finally body final w = (r, w2).
Proof. intros Hb Hf. unfold try_finally. rewrite Hb, Hf. reflexivity. Qed.

(** One call of the transport, end to end. *)
Lemma executeInDesignScript_run script w :
  executeInDesignScript env script w =
  (relayed env (issued env script w), afterTransport env script w).
Proof.
  set (w1 := {| files := <[tempScript env := wrappedScript script]> (files w);
                events := events w ++ [Written (tempScript env) (wrappedScript script)] |}).
  set (w2 := {| files := files_after (issued env script w);
                events := events w1
                          ++ [Spawned (osascriptCommand (appleScript env)) 30000] |}).
  change (executeInDesignScript env script w)
    with (try_finally
            (result <- executeAppleScript env (appleScript env) ;; ret result)
            (present <- existsSync (tempScript env) ;;
             if present then unlinkSync (tempScript env) else ret tt) w1).
  apply try_finally_returns with (w1 := w2).
  - unfold bind. rewrite executeAppleScript_run.
    change (run env (osascriptCommand (appleScript env)) (files w1))
      with (issued env script w).
    unfold relayed, w2.
    destruct (ending (issued env script w)) as [d | st out err]; [reflexivity |].
    destruct (30000 <? elapsed (issued env script w))%N; [reflexivity |].
    destruct (st =? 0); reflexivity.
  - rewrite cleanup_run. unfold afterTransport, w2, w1, transportEvents;
      cbn [files events].
    rewrite <- !app_assoc. reflexivity.
Qed.

(** A tool method whose template threw does nothing else. *)
Lemma runTool_threw label e w :
  runTool env label (Throw e) w = (Throw e, w).
Proof. reflexivity. Qed.

(** A tool method whose template gave [script]. *)
Lemma runTool_run label script w :
  runTool env label (Return script) w =
  (match relayed env (issued env script w) with
   | Return result => Return (formatResponse result label)
   | Throw e => Throw e
   end,
   afterTransport env script w).
Proof.
  unfold runTool, bind, lift. rewrite executeInDesignScript_run.
  destruct (relayed env (issued env script w)); reflexivity.
Qed.

Lemma callTool_run tool args w :
  callTool env {| name := tool; arguments := args |} w =
  match switch tool (cases env) with
  | Some method => caught env tool (method args w)
  | None =>
      (Throw (newMcpError env InternalError
                ("Error executing tool " +:+ tool +:+ ": "
                 +:+ mcpMessage env MethodNotFound ("Unknown tool: " +:+ tool))),
       w)
  end.
Proof.
  unfold callTool, try_catch, caught; cbn [name arguments].
  destruct (switch tool (cases env)) as [method |].
  - destruct (method args w) as [[r | e] w']; reflexivity.
  - reflexivity.
Qed.

(** What the outer call makes of a child that answers, and of one that
    fails. *)
Lemma relayed_answer c result :
  Answers c result -> relayed env c = Return result.
Proof.
  intros [Ht (out & err & He & Hr)]. unfold relayed. rewrite He.
  apply N.ltb_ge in Ht. rewrite Ht. cbn. rewrite Hr. reflexivity.
Qed.

Lemma relayed_failure c diagnostic :
  TransportFailure (osascriptCommand (appleScript env)) c diagnostic ->
  relayed env c = Throw (Error ("AppleScript execution failed: " +:+ diagnostic)).
Proof.
  intros [d Hd | st out err He Ht | st out err He Ht Hs]; unfold relayed; rewrite ?Hd, ?He.
  - reflexivity.
  - apply N.ltb_lt in Ht. rewrite Ht. reflexivity.
  - apply N.ltb_ge in Ht. rewrite Ht.
    destruct (st =? 0) eqn:E; [apply Z.eqb_eq in E; contradiction | reflexivity].
Qed.

(** The temporary script is never among the files a call leaves. *)
Lemma afterTransport_clean script w :
  files (afterTransport env script w) !! tempScript env = None.
Proof. unfold afterTransport; cbn. apply lookup_delete_eq. Qed.

End TransportFacts.

(* ===================================================================== *)
(** ** Facts about strings and string literals                             *)
(* ===================================================================== *)

Section Strings.

Import ExtendScript.

Lemma append_assoc (a b c : string) : (a +:+ b) +:+ c = a +:+ (b +:+ c).
Proof. induction a as [| x a IH]; simpl; [reflexivity | now rewrite IH]. Qed.

Lemma append_nil_r (a : string) : a +:+ "" = a.
Proof. induction a as [| x a IH]; simpl; [reflexivity | now rewrite IH]. Qed.

Lemma replaceAll_app c by_ s1 s2 :
  replaceAll c by_ (s1 +:+ s2) = replaceAll c by_ s1 +:+ replaceAll c by_ s2.
Proof.
  induction s1 as [| a s1 IH]; cbn; [reflexivity |].
  rewrite IH, append_assoc. reflexivity.
Qed.

Lemma plain_app a b : plain (a +:+ b) = plain a && plain b.
Proof.
  induction a as [| x a IH]; cbn; [reflexivity |].
  rewrite IH, andb_assoc. reflexivity.
Qed.

(** Plain text between double quotes denotes itself. *)
Lemma decodeBody_plain s : plain s = true -> decodeBody s = Some s.
Proof.
  induction s as [| a s IH]; cbn; [reflexivity |].
  unfold plainChar. intros H.
  apply andb_true_iff in H as [Ha Hs].
  apply negb_true_iff in Ha.
  apply orb_false_iff in Ha as [Ha Hl].
  apply orb_false_iff in Ha as [Hb Hq].
  rewrite Hb, Hq, Hl, (IH Hs). reflexivity.
Qed.

(** Decimal numerals are plain text. *)
Lemma plain_pretty_N_go x s : plain s = true -> plain (pretty_N_go x s) = true.
Proof.
  revert s. induction (N.lt_wf_0 x) as [x _ IH]; intros s Hs.
  assert (x = 0 \/ 0 < x)%N as [-> | Hx] by lia.
  - now rewrite pretty_N_go_0.
  - rewrite pretty_N_go_step by exact Hx. apply IH.
    + now apply N.div_lt.
    + cbn. rewrite Hs, andb_true_r.
      unfold pretty_N_char. now repeat case_match.
Qed.

Lemma plain_pretty_N (x : N) : plain (pretty x) = true.
Proof.
  unfold pretty, pretty_N. case_decide; [reflexivity |].
  now apply plain_pretty_N_go.
Qed.

Lemma plain_pretty_Z (z : Z) : plain (pretty z) = true.
Proof.
  destruct z as [| p | p]; unfold pretty, pretty_Z; [reflexivity | |].
  - apply plain_pretty_N.
  - rewrite plain_app. cbn. apply plain_pretty_N.
Qed.

Lemma plain_joinWith sep l :
  plain sep = true -> Forall (fun s => plain s = true) l ->
  plain (joinWith sep l) = true.
Proof.
  intros Hsep Hl. induction Hl as [| x l Hx Hl IH]; [reflexivity |].
  destruct l as [| y l]; [exact Hx |].
  change (joinWith sep (x :: y :: l)) with (x +:+ sep +:+ joinWith sep (y :: l)).
  rewrite !plain_app, Hx, Hsep, IH. reflexivity.
Qed.

(** An array of numbers: its texts and its values. *)
Lemma numbers_JNum values : numbers (map JNum values) = Some values.
Proof. induction values as [| v l IH]; cbn; [reflexivity | now rewrite IH]. Qed.

Lemma elementText_JNum values :
  map elementText (map JNum values) = map pretty values.
Proof. induction values as [| v l IH]; cbn; [reflexivity | now rewrite IH]. Qed.

(** *** The escaping of [createTextFrame] *)

Lemma escapeContent_cons a rest :
  escapeContent (String a rest) = escapeChar a +:+ escapeContent rest.
Proof.
  unfold escapeContent, escapeChar. cbn [replaceAll].
  rewrite replaceAll_app.
  destruct (Ascii.eqb a dquote) eqn:Eq; [reflexivity |].
  cbn [replaceAll]. rewrite append_nil_r. reflexivity.
Qed.

Lemma escapeContent_app a b :
  escapeContent (a +:+ b) = escapeContent a +:+ escapeContent b.
Proof. unfold escapeContent. now rewrite !replaceAll_app. Qed.

End Strings.

(* ===================================================================== *)
(** ** Facts about the handler                                             *)
(* ===================================================================== *)

Section HandlerFacts.

Variable env : Env.

Lemma writtenPaths_app a b :
  writtenPaths (a ++ b) = writtenPaths a ++ writtenPaths b.
Proof.
  induction a as [| e a IH]; [reflexivity |].
  destruct e; cbn; rewrite IH; reflexivity.
Qed.

Lemma spawned_app a b : spawned (a ++ b) = spawned a ++ spawned b.
Proof.
  induction a as [| e a IH]; [reflexivity |].
  destruct e; cbn; rewrite IH; reflexivity.
Qed.

Lemma writtenPaths_transport script w :
  writtenPaths (transportEvents env script w) = [tempScript env].
Proof. unfold transportEvents. cbn. now case_bool_decide. Qed.

Lemma spawned_transport script w :
  spawned (transportEvents env script w)
  = [(osascriptCommand (appleScript env), 30000%N)].
Proof. unfold transportEvents. cbn. now case_bool_decide. Qed.

(** Every [case] of the handler is a call of the common shape. *)
Lemma cases_uniform tool method :
  switch tool (cases env) = Some method ->
  exists label render,
    forall args w, method args w = runTool env label (render args) w.
Proof.
  unfold cases. cbn [switch].
  repeat
    (destruct (String.eqb tool _);
     [ intros [= <-];
       first
         [ eexists _, _; intros args w; reflexivity
         | exists "Execute Custom Code",
             (fun args => andThen (property args "code")
                            (fun code => Return (ToString code)));
           intros [o |] w; reflexivity ]
     | ]).
  discriminate.
Qed.

(** The methods of the four tools spelled out above. *)
Lemma switch_execute_indesign_code :
  switch "execute_indesign_code" (cases env)
  = Some (fun args : option Obj =>
            code <- lift (property args "code") ;; executeInDesignCode env code).
Proof. reflexivity. Qed.

Lemma switch_delete_page :
  switch "delete_page" (cases env) = Some (deletePage env).
Proof. reflexivity. Qed.

Lemma switch_create_text_frame :
  switch "create_text_frame" (cases env) = Some (createTextFrame env).
Proof. reflexivity. Qed.

Lemma switch_create_color_swatch :
  switch "create_color_swatch" (cases env) = Some (createColorSwatch env).
Proof. reflexivity. Qed.

(** The pass-through tool, for a string [code]. *)
Lemma callTool_code (args : Obj) code w :
  args !! "code" = Some (JStr code) ->
  callTool env {| name := "execute_indesign_code"; arguments := Some args |} w
  = caught env "execute_indesign_code"
      (runTool env "Execute Custom Code" (Return code) w).
Proof.
  intros Hc. rewrite callTool_run, switch_execute_indesign_code.
  unfold bind at 1, lift, property, get. rewrite Hc. reflexivity.
Qed.

End HandlerFacts.

(* ===================================================================== *)
(** ** The claims                                                          *)
(* ===================================================================== *)

(** *** C1: the temporary script never outlives the call *)

(** The three exits of the transport on the example machines: the outer call
    returns, is killed at its time limit, exits with a non-zero status. Each
    time the files are as they were found. *)
Example transport_returns :
  executeInDesignScript (Demo.server (Demo.prints ("3" +:+ nl)))
    "app.documents.length;" Demo.start
  = (Return "3",
     afterTransport (Demo.server (Demo.prints ("3" +:+ nl)))
       "app.documents.length;" Demo.start)
  /\ files (afterTransport (Demo.server (Demo.prints ("3" +:+ nl)))
              "app.documents.length;" Demo.start) = ∅.
Proof. split; [apply executeInDesignScript_run | reflexivity]. Qed.

Example transport_times_out :
  fst (executeInDesignScript (Demo.server Demo.hangs) "while (true) {}" Demo.start)
  = Throw (Error "AppleScript execution failed: spawnSync /bin/sh ETIMEDOUT")
  /\ files (snd (executeInDesignScript (Demo.server Demo.hangs)
                   "while (true) {}" Demo.start)) = ∅.
Proof. rewrite executeInDesignScript_run. split; reflexivity. Qed.

Example transport_exits_non_zero :
  fst (executeInDesignScript (Demo.server Demo.broken) "1;" Demo.start)
  = Throw (Error
      ("AppleScript execution failed: Command failed: "
       +:+ osascriptCommand (appleScript (Demo.server Demo.broken)) +:+ nl
       +:+ "execution error: Application is not running. (-600)"))
  /\ files (snd (executeInDesignScript (Demo.server Demo.broken) "1;" Demo.start))
     = ∅.
Proof. rewrite executeInDesignScript_run. split; reflexivity. Qed.

(** C1. Every call of [executeInDesignScript] writes its guarded payload to
    [tempScript], and whatever the outer automation call does (it returns,
    it throws, it is killed at the time limit) and whatever its run did to the
    files, no file is left at [tempScript] when control returns: the files
    are those the run left, with [tempScript] deleted. *)
Theorem C1_temporary_script_removed (env : Env) (script : string) (w : World) :
  writtenPaths (events (snd (executeInDesignScript env script w)))
    = writtenPaths (events w) ++ [tempScript env]
  /\ files (snd (executeInDesignScript env script w)) !! tempScript env = None
  /\ files (snd (executeInDesignScript env script w))
     = delete (tempScript env) (files_after (issued env script w)).
Proof.
  rewrite executeInDesignScript_run. cbn [snd]. repeat split.
  - unfold afterTransport; cbn [events].
    rewrite writtenPaths_app, writtenPaths_transport. reflexivity.
  - apply afterTransport_clean.
Qed.

(** *** C2: the name of the temporary script *)

(** C2 (counterexample). Two requests in a row, with different payloads,
    write to the same path. *)
Lemma C2_two_requests_one_path :
  "app.documents.length;" <> "app.activeDocument.name;"
  /\ writtenPaths
       (events (snd (executeInDesignScript (Demo.server (Demo.prints "1"))
                       "app.documents.length;" Demo.start)))
     = ["/srv/indesign-mcp-server/temp_script.jsx"]
  /\ writtenPaths
       (events (snd (executeInDesignScript (Demo.server (Demo.prints "1"))
                       "app.activeDocument.name;"
                       (snd (executeInDesignScript (Demo.server (Demo.prints "1"))
                               "app.documents.length;" Demo.start)))))
     = ["/srv/indesign-mcp-server/temp_script.jsx";
        "/srv/indesign-mcp-server/temp_script.jsx"].
Proof.
  split; [discriminate |].
  rewrite !executeInDesignScript_run. cbn [snd]. split.
  - unfold afterTransport; cbn [events].
    rewrite writtenPaths_app, writtenPaths_transport. reflexivity.
  - unfold afterTransport; cbn [events].
    rewrite !writtenPaths_app, !writtenPaths_transport. reflexivity.
Qed.

(** C2 (amended). Every request writes its guarded payload to one and the
    same path, [temp_script.jsx] in the directory of the module: the path
    depends neither on the payload nor on the state of the machine. *)
Theorem C2_fixed_temporary_path (env : Env) (script : string) (w : World) :
  tempScript env = dirname env +:+ "/temp_script.jsx"
  /\ writtenPaths (events (snd (executeInDesignScript env script w)))
     = writtenPaths (events w) ++ [tempScript env]
  /\ In (Written (tempScript env) (wrappedScript script))
        (events (snd (executeInDesignScript env script w))).
Proof.
  rewrite executeInDesignScript_run. cbn [snd]. repeat split.
  - unfold afterTransport; cbn [events].
    rewrite writtenPaths_app, writtenPaths_transport. reflexivity.
  - unfold afterTransport, transportEvents; cbn [events].
    apply in_or_app. right. left. reflexivity.
Qed.

(** *** C3: what becomes of the text the transport returns *)




(** *** C4: a request that lacks a required parameter *)


Lemma get_missing (args : Obj) k : args !! k = None -> get args k = JUndefined.
Proof. intros H. unfold get. now rewrite H. Qed.

Lemma createTextFramePayload_without_content (args : Obj) :
  args !! "content" = None ->
  createTextFramePayload (Some args)
  = Throw (TypeError "Cannot read properties of undefined (reading 'replace')").
Proof.
  intros H. unfold createTextFramePayload. cbn [destructure andThen]. cbv zeta.
  rewrite (get_missing _ _ H). reflexivity.
Qed.

Lemma createColorSwatchPayload_without_values (args : Obj) :
  args !! "colorValues" = None ->
  createColorSwatchPayload (Some args)
  = Throw (TypeError "Cannot read properties of undefined (reading 'join')").
Proof.
  intros H. unfold createColorSwatchPayload. cbn [destructure andThen]. cbv zeta.
  rewrite (get_missing _ _ H). reflexivity.
Qed.

Lemma deletePagePayload_without_index (args : Obj) :
  args !! "pageIndex" = None ->
  deletePagePayload (Some args) = Return (deletePageScript "undefined").
Proof.
  intros H. unfold deletePagePayload. cbn [destructure andThen]. cbv zeta.
  rewrite (get_missing _ _ H). reflexivity.
Qed.

Lemma snd_caught env tool r : snd (caught env tool r) = snd r.
Proof. destruct r as [[a | e] w]; reflexivity. Qed.



(** *** C5: a name outside the catalog *)

(** C5. On the name ["no_such_tool"] the handler throws inside its own [try]
    the [MethodNotFound] error of the [default] branch, and its [catch]
    clause rethrows it as an [InternalError] whose message quotes the first
    one: the caller receives the code [InternalError], not [MethodNotFound].
    The world is untouched: no temporary file, no outer automation call. *)
Theorem C5_unknown_tool_is_internal_error :
  callTool (Demo.server (Demo.prints "ok"))
    {| name := "no_such_tool"; arguments := Some ∅ |} Demo.start
  = (Throw (McpError InternalError
              ("MCP error -32603: Error executing tool no_such_tool: "
               +:+ "MCP error -32601: Unknown tool: no_such_tool")),
     Demo.start).
Proof. rewrite callTool_run. reflexivity. Qed.

(** *** C6: the escaping of [content] *)

(** C6. The escaping leaves backslashes alone, so the literal does not
    always denote the text: for the two characters backslash and [n] the
    literal is again backslash and [n], which the engine reads as one line
    feed; for a lone backslash the literal swallows its closing quote and
    denotes nothing. The second literal that embeds [content], the preview
    at the end of the payload, is not escaped at all: a double quote or a
    line feed in [content] ends it early. *)
Theorem C6_backslash_and_preview_unescaped :
  escapeContent (bs +:+ "n") = bs +:+ "n"
  /\ ExtendScript.decodeBody (escapeContent (bs +:+ "n")) = Some nl
  /\ nl <> bs +:+ "n"
  /\ ExtendScript.decodeBody (escapeContent bs) = None
  /\ ExtendScript.decodeBody (escapeContent ("say " +:+ dq +:+ "hi" +:+ dq))
     = Some ("say " +:+ dq +:+ "hi" +:+ dq)
  /\ ExtendScript.decodeBody (preview ("say " +:+ dq +:+ "hi" +:+ dq)) = None
  /\ ExtendScript.decodeBody (preview ("a" +:+ nl +:+ "b")) = None.
Proof. repeat split; (reflexivity || discriminate). Qed.

(** *** C7: failures of the outer automation call *)



(** *** C8: the pass-through tool *)

(** The guard never ends by an exception: it passes a value on, and turns
    an exception into the sentinel text. *)
Lemma guard_run {App} (body : ExtendScript.Script App string) (app : App) :
  ExtendScript.guard body app
  = match body app with
    | (ExtendScript.Normal v, app') => (ExtendScript.Normal v, app')
    | (ExtendScript.Abrupt e, app') =>
        (ExtendScript.Normal
           ("ERROR: " +:+ ExtendScript.message e +:+ " (Line: "
            +:+ match ExtendScript.line e with
                | Some l => if (l =? 0)%N then "unknown" else pretty l
                | None => "unknown"
                end
            +:+ ")"),
         app')
    end.
Proof.
  unfold ExtendScript.guard, ExtendScript.tryCatch.
  destruct (body app) as [[v | e] app']; reflexivity.
Qed.



(** *** C9: deleting the only page *)

Lemma get_present (args : Obj) k v : args !! k = Some v -> get args k = v.
Proof. intros H. unfold get. now rewrite H. Qed.



(** *** C10: a swatch in the LAB model *)

(** On the example application, the CMYK request adds a swatch and the LAB
    request adds none; both report a creation. *)
Example cmyk_adds_a_swatch :
  option_map (fun sc => ExtendScript.guard sc Desk.onePage)
    (ExtendScript.createColorSwatchMeaning
       (Some {[ "name" := JStr "Sea";
                "colorValues" := JArr [JNum 60; JNum 0; JNum 20; JNum 10] ]}))
  = Some (ExtendScript.Normal "Color swatch 'Sea' created (CMYK: 60, 0, 20, 10)",
          {| Desk.documents := 1; Desk.pages := 1;
             Desk.swatches := [ {| Desk.swatchName := "Sea";
                                   Desk.model := "PROCESS";
                                   Desk.space := "CMYK";
                                   Desk.colorValue := [60; 0; 20; 10] |} ] |}).
Proof. reflexivity. Qed.

Example lab_adds_no_swatch :
  option_map (fun sc => ExtendScript.guard sc Desk.onePage)
    (ExtendScript.createColorSwatchMeaning
       (Some {[ "name" := JStr "Sea"; "colorModel" := JStr "LAB";
                "colorValues" := JArr [JNum 50; JNum (-20); JNum 30] ]}))
  = Some (ExtendScript.Normal "Color swatch 'Sea' created (LAB: 50, -20, 30)",
          Desk.onePage).
Proof. reflexivity. Qed.

Lemma plain_swatchCreated name values :
  ExtendScript.plain name = true ->
  ExtendScript.plain (swatchCreated name "LAB" values) = true.
Proof.
  intros Hn. unfold swatchCreated.
  rewrite !plain_app, Hn, plain_joinWith; [reflexivity | reflexivity |].
  apply Forall_forall. intros s Hs. apply list_elem_of_In, in_map_iff in Hs.
  destruct Hs as (z & <- & _). apply plain_pretty_Z.
Qed.



(* ===================================================================== *)
(** ** Further properties                                                  *)
(* ===================================================================== *)

(** X1. For a [content] without backslash and without carriage return, the
    text [createTextFrame] puts between the double quotes of
    [textFrame.contents = "..."] is the body of one string literal, and that
    literal denotes [content]. *)
Theorem X1_escaping_round_trip (content : string) :
  tame content = true ->
  ExtendScript.decodeBody (escapeContent content) = Some content.
Proof.
  induction content as [| a rest IH]; [reflexivity |].
  cbn [tame]. intros H.
  apply andb_true_iff in H as [Ha Hr].
  apply negb_true_iff, orb_false_iff in Ha as [Hb Hc].
  rewrite escapeContent_cons. unfold escapeChar.
  destruct (Ascii.eqb a dquote) eqn:Eq.
  - apply Ascii.eqb_eq in Eq. subst a. cbn. rewrite (IH Hr). reflexivity.
  - destruct (Ascii.eqb a LF) eqn:El.
    + apply Ascii.eqb_eq in El. subst a. cbn. rewrite (IH Hr). reflexivity.
    + cbn. unfold ExtendScript.isLineTerminator.
      rewrite Hb, Eq, El, Hc, (IH Hr). reflexivity.
Qed.

(** X1 (witness): quotes and a line feed. *)
Lemma X1_escaping_round_trip_witness :
  ExtendScript.decodeBody
    (escapeContent ("He said " +:+ dq +:+ "hi" +:+ dq +:+ nl +:+ "and left"))
  = Some ("He said " +:+ dq +:+ "hi" +:+ dq +:+ nl +:+ "and left").
Proof.
  apply (X1_escaping_round_trip
           ("He said " +:+ dq +:+ "hi" +:+ dq +:+ nl +:+ "and left")).
  reflexivity.
Defined.

(** X2. A request whose name is none of the [case] labels never reaches the
    transport: the handler throws and leaves the world as it found it (no
    temporary file, no outer automation call). The exception it throws is an
    [InternalError] quoting the [MethodNotFound] error of the [default]
    branch. *)
Theorem X2_unknown_tool_touches_nothing
    (env : Env) (tool : string) (args : option Obj) (w : World) :
  switch tool (cases env) = None ->
  callTool env {| name := tool; arguments := args |} w
  = (Throw (McpError InternalError
              (mcpMessage env InternalError
                 ("Error executing tool " +:+ tool +:+ ": "
                  +:+ mcpMessage env MethodNotFound ("Unknown tool: " +:+ tool)))),
     w).
Proof. intros Hs. rewrite callTool_run, Hs. reflexivity. Qed.

(** X2 (witness): the labels are compared exactly, letter case included. *)
Lemma X2_unknown_tool_touches_nothing_witness :
  snd (callTool (Demo.server Demo.hangs)
         {| name := "Delete_Page"; arguments := None |} Demo.start)
  = Demo.start.
Proof.
  rewrite (X2_unknown_tool_touches_nothing (Demo.server Demo.hangs)
             "Delete_Page" None Demo.start); reflexivity.
Defined.



(** *** The shell argument of [executeAppleScript] *)

(** Inside single quotes, the replacement of every single quote closes the
    quotes, gives the quote between double quotes, and opens them again. *)
Lemma word_single script rest :
  Shell.word Shell.Single
    (replaceAll squote (sq +:+ dq +:+ sq +:+ dq +:+ sq) script +:+ rest)
  = match Shell.word Shell.Single rest with
    | Some text => Some (script +:+ text)
    | None => None
    end.
Proof.
  induction script as [| a script IH]; cbn [replaceAll].
  - cbn. destruct (Shell.word Shell.Single rest); reflexivity.
  - rewrite append_assoc. destruct (Ascii.eqb a squote) eqn:Ea.
    + apply Ascii.eqb_eq in Ea. subst a.
      change (ExtendScript.consTo squote
                (Shell.word Shell.Single
                   (replaceAll squote (sq +:+ dq +:+ sq +:+ dq +:+ sq) script
                    +:+ rest))
              = match Shell.word Shell.Single rest with
                | Some text => Some (String squote script +:+ text)
                | None => None
                end).
      rewrite IH. destruct (Shell.word Shell.Single rest); reflexivity.
    + change (Shell.word Shell.Single
                (String a (replaceAll squote (sq +:+ dq +:+ sq +:+ dq +:+ sq) script
                           +:+ rest))
              = match Shell.word Shell.Single rest with
                | Some text => Some (String a script +:+ text)
                | None => None
                end).
      cbn [Shell.word]. rewrite Ea, IH.
      destruct (Shell.word Shell.Single rest); reflexivity.
Qed.

(** X4. For every AppleScript text, the shell command [executeAppleScript]
    builds is [osascript -e] followed by one quoted word, and the shell
    reads that word as the text itself: a single quote in the text cannot
    end the quoting, so nothing of the text is run by the shell. *)
Theorem X4_shell_argument_is_the_script (script : string) :
  exists word,
    osascriptCommand script = "osascript -e " +:+ word
    /\ Shell.word Shell.Bare word = Some script.
Proof.
  exists (sq +:+ replaceAll squote (sq +:+ dq +:+ sq +:+ dq +:+ sq) script +:+ sq).
  split; [reflexivity |].
  change (Shell.word Shell.Bare
            (sq +:+ replaceAll squote (sq +:+ dq +:+ sq +:+ dq +:+ sq) script +:+ sq))
    with (Shell.word Shell.Single
            (replaceAll squote (sq +:+ dq +:+ sq +:+ dq +:+ sq) script +:+ sq)).
  rewrite word_single. cbn. rewrite append_nil_r. reflexivity.
Qed.

(** *** The handler, for every request *)


(** X6. Whatever the request, the handler either leaves the machine
    exactly as it found it, or it ran the transport once: one file written,
    at [tempScript]; one outer automation call, with the 30000 ms limit; and
    no file left at [tempScript]. *)
Theorem X6_at_most_one_outer_call (env : Env) (request : Request) (w : World) :
  snd (callTool env request w) = w
  \/ (exists script,
        snd (callTool env request w) = afterTransport env script w
        /\ writtenPaths (events (snd (callTool env request w)))
           = writtenPaths (events w) ++ [tempScript env]
        /\ spawned (events (snd (callTool env request w)))
           = spawned (events w) ++ [(osascriptCommand (appleScript env), 30000%N)]
        /\ files (snd (callTool env request w)) !! tempScript env = None).
Proof.
  destruct request as [tool args]. rewrite callTool_run.
  destruct (switch tool (cases env)) as [method |] eqn:Hs; [| left; reflexivity].
  destruct (cases_uniform env tool method Hs) as (label & render & Hm).
  rewrite Hm, snd_caught. destruct (render args) as [script | e].
  - right. exists script. rewrite runTool_run. cbn [snd].
    split; [reflexivity |]. unfold afterTransport at 1 2; cbn [events].
    rewrite writtenPaths_app, writtenPaths_transport,
      spawned_app, spawned_transport.
    split; [reflexivity |]. split; [reflexivity |]. apply afterTransport_clean.
  - left. rewrite runTool_threw. reflexivity.
Qed.

(** *** The files around one call of the transport *)

(** X7. When the outer automation call leaves the files as it found them,
    [executeInDesignScript] changes nothing at any other path, and a file
    that was at [tempScript] before the call is gone after it. *)
Theorem X7_transport_frame (env : Env) (script : string) (w : World) :
  files_after (issued env script w)
    = <[tempScript env := wrappedScript script]> (files w) ->
  files (snd (executeInDesignScript env script w))
    = delete (tempScript env) (files w)
  /\ forall path,
       path <> tempScript env ->
       files (snd (executeInDesignScript env script w)) !! path = files w !! path.
Proof.
  intros Hf. rewrite executeInDesignScript_run. unfold afterTransport; cbn [snd files].
  rewrite Hf, delete_insert_eq. split; [reflexivity |].
  intros path Hp. apply lookup_delete_ne. congruence.
Qed.

(** X7 (witness): a machine with a presentation and with an older file at
    the place of the temporary script. *)
Lemma X7_transport_frame_witness :
  files (snd (executeInDesignScript (Demo.server (Demo.prints "1"))
                "app.documents.length;"
                {| files := {[ "/srv/indesign-mcp-server/temp_script.jsx" := "mine";
                               "/srv/book.indd" := "pages" ]};
                   events := [] |}))
  = {[ "/srv/book.indd" := "pages" ]}.
Proof.
  pose proof (X7_transport_frame (Demo.server (Demo.prints "1"))
                "app.documents.length;"
                {| files := {[ "/srv/indesign-mcp-server/temp_script.jsx" := "mine";
                               "/srv/book.indd" := "pages" ]};
                   events := [] |}) as H.
  destruct H as [H _]; [reflexivity |]. rewrite H. reflexivity.
Defined.

(** *** Page indices *)



(** *** Payloads with a [try] of their own *)

(** A [try] whose [catch] block yields a value ends normally. *)
Lemma tryCatch_value {App A} (body : ExtendScript.Script App A)
    (handler : ExtendScript.Exception -> A) (app : App) :
  exists a app',
    ExtendScript.tryCatch body
      (fun e => ExtendScript.value (handler e)) app
    = (ExtendScript.Normal a, app').
Proof.
  unfold ExtendScript.tryCatch.
  destruct (body app) as [[a | e] app']; eexists _, _; reflexivity.
Qed.

(** A payload that ends normally is its own guarded form. *)
Lemma guard_normal {App} (body : ExtendScript.Script App string) (app : App) :
  (exists text app', body app = (ExtendScript.Normal text, app')) ->
  ExtendScript.guard body app = body app.
Proof.
  intros (text & app' & Hb). rewrite guard_run, Hb. reflexivity.
Qed.


(** *** Arguments the payload does not use *)

Lemma get_insert_ne (args : Obj) k k' v :
  k <> k' -> get (<[k := v]> args) k' = get args k'.
Proof. intros Hk. unfold get. rewrite lookup_insert_ne; [reflexivity | exact Hk]. Qed.



(** *** zoomToPage *)





(** *** createDocument *)

Lemma strictEquals_other (v : JsValue) (text : string) :
  v <> JStr text -> strictEquals v text = false.
Proof.
  intros Hv. destruct v as [| | b | n | | s | items | o]; try reflexivity.
  cbn. apply String.eqb_neq. congruence.
Qed.





(** What holds of a sequence: what holds when its first part ends by an
    exception, and of the rest after every normal end of the first part. *)
Lemma seq_outcomes {App A B} (m : ExtendScript.Script App A)
    (k : A -> ExtendScript.Script App B) (app : App)
    (P : ExtendScript.Completion B * App -> Prop) :
  (forall e app', P (ExtendScript.Abrupt e, app')) ->
  (forall a app', P (k a app')) ->
  P (ExtendScript.seq m k app).
Proof.
  intros He Hk. unfold ExtendScript.seq.
  destruct (m app) as [[a | e] app']; [apply Hk | apply He].
Qed.

